(** * CommentPlugin: a shallow embedding of td/converter/plugins/CommentPlugin.ts

    The plugin parses javadoc comments, keeps the best comment of every
    module, and moves [@param] / [@returns] documentation from declarations
    onto signatures and parameters.

    Conventions of the embedding.
    - A JavaScript string is a [string]: a sequence of code units, here
      restricted to the range 0..255.  [String.length] is the JavaScript
      [length].
    - A field that may be [undefined] is an [option].
    - Objects of the reflection tree are owned by one node each (no two
      nodes share a comment object), so comments are plain values stored in
      their owner; where the source keeps a reference to an object inside
      an array ([currentTag] in [parseComment], the result of [getTag] in
      [onCreateTypeParameter]) the reference is the array index.
    - [getComment], which reads the TypeScript syntax tree, is not part of
      the embedding: the hooks take the raw comment it returns. *)

From Stdlib Require Import ZArith Ascii String.
From stdpp Require Import base list option gmap.

Local Open Scope string_scope.
Local Open Scope list_scope.

(** ** String primitives used by the plugin *)

Module Str.

(** [\s] of a JavaScript regular expression, which is also the set removed
    by [String.prototype.trim]: TAB, LF, VT, FF, CR, SPACE and NBSP (the
    members of the class below 256). *)
Definition isSpace (c : ascii) : bool :=
  match nat_of_ascii c with
  | 9 | 10 | 11 | 12 | 13 | 32 | 160 => true
  | _ => false
  end.

(** [\w]: [A-Za-z0-9_]. *)
Definition isWord (c : ascii) : bool :=
  let n := nat_of_ascii c in
  (Nat.leb 65 n && Nat.leb n 90) || (Nat.leb 97 n && Nat.leb n 122)
  || (Nat.leb 48 n && Nat.leb n 57) || Nat.eqb n 95.

Definition isStar (c : ascii) : bool := Ascii.eqb c "*".

Definition toLowerChar (c : ascii) : ascii :=
  let n := nat_of_ascii c in
  if Nat.leb 65 n && Nat.leb n 90 then ascii_of_nat (n + 32) else c.

(** [s.toLowerCase()] on the letters A-Z.  The only use in the plugin is a
    search for ["@preferred"] and the comparison of a [\w+] tag name, for
    which no other code unit matters. *)
Fixpoint toLowerCase (s : string) : string :=
  match s with
  | EmptyString => EmptyString
  | String c r => String (toLowerChar c) (toLowerCase r)
  end.

(** [s.indexOf(pat)], with -1 for "not found". *)
Definition indexOf (s pat : string) : Z :=
  match String.index 0 pat s with
  | Some n => Z.of_nat n
  | None => (-1)%Z
  end.

Fixpoint dropWhile (p : ascii -> bool) (s : string) : string :=
  match s with
  | EmptyString => EmptyString
  | String c r => if p c then dropWhile p r else s
  end.

Fixpoint takeWhile (p : ascii -> bool) (s : string) : string :=
  match s with
  | EmptyString => EmptyString
  | String c r => if p c then String c (takeWhile p r) else EmptyString
  end.

Fixpoint all (p : ascii -> bool) (s : string) : bool :=
  match s with
  | EmptyString => true
  | String c r => p c && all p r
  end.

(** [s.substr(n)]: the string without its first [n] code units. *)
Fixpoint substr (n : nat) (s : string) : string :=
  match n, s with
  | O, _ => s
  | S _, EmptyString => EmptyString
  | S m, String _ r => substr m r
  end.

(** [s.replace(/\s*$/, '')]: the leftmost position from which only white
    space remains up to the end of the string is where the match starts. *)
Fixpoint stripTrailing (s : string) : string :=
  if all isSpace s then EmptyString
  else match s with
       | EmptyString => EmptyString
       | String c r => String c (stripTrailing r)
       end.

(** [s.trim()]. *)
Definition trim (s : string) : string := stripTrailing (dropWhile isSpace s).

(** An optional single character at the start of the string: [c?]. *)
Definition dropOpt (c : ascii) (s : string) : string :=
  match s with
  | String d r => if Ascii.eqb d c then r else s
  | EmptyString => s
  end.

(** [s.split(/\r\n?|\n/)]. *)
Fixpoint splitLines (s : string) : list string :=
  match s with
  | EmptyString => [EmptyString]
  | String c r =>
      if Ascii.eqb c "010" then EmptyString :: splitLines r
      else if Ascii.eqb c "013" then
        match r with
        | String d r' =>
            if Ascii.eqb d "010" then EmptyString :: splitLines r'
            else EmptyString :: splitLines r
        | EmptyString => EmptyString :: splitLines r
        end
      else
        match splitLines r with
        | l :: ls => String c l :: ls
        | [] => [String c EmptyString]
        end
  end.

(** The first character [c] of [s] and what follows it: used for
    [[^\}]*\}] and [[^\]]*\]], which end at the first closing character. *)
Fixpoint afterFirst (c : ascii) (s : string) : option string :=
  match s with
  | EmptyString => None
  | String d r => if Ascii.eqb d c then Some r else afterFirst c r
  end.

(** The lines of a list joined by a line feed: the value of a field that
    was built by [x += (x == '' ? '' : '\n') + line] from non-empty
    beginnings. *)
Fixpoint joinLines (ls : list string) : string :=
  match ls with
  | [] => EmptyString
  | [l] => l
  | l :: ls' => String.append l (String "010" (joinLines ls'))
  end.

End Str.

(** JavaScript truthiness of a string, and [a || b] on strings that may be
    [undefined]. *)
Definition truthy (s : option string) : bool :=
  match s with
  | Some (String _ _) => true
  | _ => false
  end.

Definition js_or (a b : option string) : option string :=
  if truthy a then a else b.

(** ** Data model *)

(** Modelled from the spec: the class [CommentTag] of the models (its
    declaration is not part of this unit).  A tag has a name, a parameter
    name that is the empty string when there is none, and a text. *)
Record CommentTag : Type := mkTag {
  tagName : string;
  paramName : string;
  text : string
}.

(** Modelled from the spec: [new CommentTag(tagName, paramName, text)],
    where a missing ([undefined]) parameter name is stored as the empty
    string. *)
Definition new_CommentTag (tagName : string) (paramName : option string)
    (text : string) : CommentTag :=
  mkTag tagName (default "" paramName) text.

(** Modelled from the spec: the class [Comment] of the models.  [returns]
    and [tags] are [undefined] on a new comment. *)
Record Comment : Type := mkComment {
  shortText : string;
  c_text : string;
  returns : option string;
  tags : option (list CommentTag)
}.

(** Modelled from the spec: [new Comment(shortText)] builds a comment from
    a short text only; [new Comment()] is [new_Comment ""]. *)
Definition new_Comment (short : string) : Comment :=
  mkComment short "" None None.

Definition tagsOf (c : Comment) : list CommentTag := default [] (tags c).

Definition set_tags (c : Comment) (ts : option (list CommentTag)) : Comment :=
  mkComment (shortText c) (c_text c) (returns c) ts.

Definition set_returns (c : Comment) (r : option string) : Comment :=
  mkComment (shortText c) (c_text c) r (tags c).

(** Modelled from the spec: [comment.hasTag(tagName)], true when some tag of
    the comment has that name. *)
Definition hasTag (c : Comment) (name : string) : bool :=
  existsb (fun t => String.eqb (tagName t) name) (tagsOf c).

Definition tagMatches (name : string) (param : option string)
    (t : CommentTag) : bool :=
  String.eqb (tagName t) name &&
  match param with
  | Some p => String.eqb (paramName t) p
  | None => true
  end.

(** The position of the first tag accepted by [p], from position [i] on. *)
Fixpoint findIndex (p : CommentTag -> bool) (i : nat)
    (ts : list CommentTag) : option nat :=
  match ts with
  | [] => None
  | t :: ts' => if p t then Some i else findIndex p (S i) ts'
  end.

(** Modelled from the spec: [comment.getTag(tagName, paramName?)], the first
    tag with that name whose [paramName] equals the requested one when one
    is given.  The reference it returns is the position of the tag in
    [comment.tags]. *)
Definition getTagIndex (c : Comment) (name : string)
    (param : option string) : option nat :=
  findIndex (tagMatches name param) 0 (tagsOf c).

(** Modelled from the spec: the tag [comment.getTag(tagName, paramName?)]
    returns, [None] for [null]. *)
Definition getTag (c : Comment) (name : string)
    (param : option string) : option CommentTag :=
  i ← getTagIndex c name param; tagsOf c !! i.

(** ** removeTags *)

(** The [while] loop of [removeTags]: [kept] is [comment.tags[0..i)], already
    inspected, and [rest] is [comment.tags[i..c)].  A tag with the given name
    is spliced out and the index stays; any other tag is stepped over. *)
Fixpoint removeTags_loop (name : string) (kept rest : list CommentTag)
    : list CommentTag :=
  match rest with
  | [] => kept
  | t :: rest' =>
      if String.eqb (tagName t) name then removeTags_loop name kept rest'
      else removeTags_loop name (kept ++ [t]) rest'
  end.

(** [CommentPlugin.removeTags(comment, tagName)] on an existing comment. *)
Definition removeTags (c : Comment) (name : string) : Comment :=
  match tags c with
  | None => c
  | Some ts => set_tags c (Some (removeTags_loop name [] ts))
  end.

(** [CommentPlugin.removeTags] on a comment that may be [undefined]. *)
Definition removeTags_opt (c : option Comment) (name : string)
    : option Comment :=
  (fun c => removeTags c name) <$> c.

(** ** parseComment *)

(** [consumeTypeData]: one leading [{...}], then one leading [[...]], then
    [trim]. *)
Definition stripBracketed (open close : ascii) (line : string) : string :=
  match line with
  | String c r =>
      if Ascii.eqb c open then default line (Str.afterFirst close r) else line
  | EmptyString => line
  end.

Definition consumeTypeData (line : string) : string :=
  let line := stripBracketed "{" "}" line in
  let line := stripBracketed "[" "]" line in
  Str.trim line.

(** [text.replace(/^\s*\/\*+/, '')]. *)
Definition stripOpen (text : string) : string :=
  match Str.dropWhile Str.isSpace text with
  | String "/" (String "*" r) => Str.dropWhile Str.isStar r
  | _ => text
  end.

(** Does [/\*+\/\s*$/] match at the very start of [s]? *)
Definition matchClose (s : string) : bool :=
  match s with
  | String "*" r =>
      match Str.dropWhile Str.isStar r with
      | String "/" r' => Str.all Str.isSpace r'
      | _ => false
      end
  | _ => false
  end.

(** [text.replace(/\*+\/\s*$/, '')]: the match is tried at every position
    from the left; it always extends to the end of the text. *)
Fixpoint stripClose (text : string) : string :=
  if matchClose text then EmptyString
  else match text with
       | EmptyString => EmptyString
       | String c r => String c (stripClose r)
       end.

(** The two replacements at the head of the [forEach] callback:
    [/^\s*\*? ?/] and [/\s*$/]. *)
Definition stripGutter (line : string) : string :=
  Str.dropOpt " " (Str.dropOpt "*" (Str.dropWhile Str.isSpace line)).

Definition normalizeLine (line : string) : string :=
  Str.stripTrailing (stripGutter line).

(** [/^@(\w+)/.exec(line)]: the captured word, when the line starts a tag. *)
Definition tagMatch (line : string) : option string :=
  match line with
  | String "@" r =>
      match Str.takeWhile Str.isWord r with
      | EmptyString => None
      | w => Some w
      end
  | _ => None
  end.

(** [/[^\s]+/.exec(line)]: the first maximal run of non-space code units. *)
Definition firstToken (line : string) : option string :=
  match Str.takeWhile (fun c => negb (Str.isSpace c))
          (Str.dropWhile Str.isSpace line) with
  | EmptyString => None
  | t => Some t
  end.

(** The variables the callback of [lines.forEach] closes over: the comment
    being filled, [currentTag] (a reference into [comment.tags], kept as its
    index) and the phase counter [shortText]. *)
Record ParseState : Type := mkParseState {
  ps_comment : Comment;
  currentTag : option nat;
  ps_shortText : nat
}.

Definition appendTagText (line : string) (t : CommentTag) : CommentTag :=
  mkTag (tagName t) (paramName t)
        (String.append (text t) (String "010" line)).

(** [x += (x == '' ? '' : '\n') + line]. *)
Definition appendLine (x line : string) : string :=
  String.append x
    (String.append (if String.eqb x "" then "" else String "010" "") line).

(** The tag built from a line that starts one: name, parameter name
    ([undefined] unless the tag is a [param] with a token) and text. *)
Definition parseTag (word line : string) : CommentTag :=
  let tagName := Str.toLowerCase word in
  let line := Str.trim (Str.substr (String.length tagName + 1) line) in
  let tagName := if String.eqb tagName "return" then "returns" else tagName in
  if String.eqb tagName "param" then
    let line := consumeTypeData line in
    let '(paramName, line) :=
      match firstToken line with
      | Some p =>
          (Some p, Str.trim (Str.substr (String.length p + 1) line))
      | None => (None, line)
      end in
    new_CommentTag tagName paramName (consumeTypeData line)
  else if String.eqb tagName "returns" then
    new_CommentTag tagName None (consumeTypeData line)
  else new_CommentTag tagName None line.

(** The body of the [forEach] callback, after the line was normalized. *)
Definition parseStep (st : ParseState) (line : string) : ParseState :=
  let comment := ps_comment st in
  match tagMatch line with
  | Some word =>
      let ts := tagsOf comment in
      mkParseState (set_tags comment (Some (ts ++ [parseTag word line])))
                   (Some (length ts)) (ps_shortText st)
  | None =>
      match currentTag st with
      | Some i =>
          mkParseState
            (set_tags comment (alter (appendTagText line) i <$> tags comment))
            (currentTag st) (ps_shortText st)
      | None =>
          if String.eqb line "" && Nat.eqb (ps_shortText st) 0 then st
          else if String.eqb line "" && Nat.eqb (ps_shortText st) 1 then
            mkParseState comment None 2
          else if Nat.eqb (ps_shortText st) 2 then
            mkParseState
              (mkComment (shortText comment) (appendLine (c_text comment) line)
                         (returns comment) (tags comment))
              None (ps_shortText st)
          else
            mkParseState
              (mkComment (appendLine (shortText comment) line) (c_text comment)
                         (returns comment) (tags comment))
              None 1
      end
  end.

Definition parseLine (st : ParseState) (line : string) : ParseState :=
  parseStep st (normalizeLine line).

(** The lines handed to [forEach]. *)
Definition commentLines (text : string) : list string :=
  Str.splitLines (stripClose (stripOpen text)).

(** The state of the callback's variables after [lines.forEach] went
    through the given lines, starting from [var currentTag] (unset),
    [shortText = 0] and the comment passed in or a new one. *)
Definition parseLines (lines : list string) (comment : option Comment)
    : ParseState :=
  fold_left parseLine lines
    (mkParseState (default (new_Comment "") comment) None 0).

(** [CommentPlugin.parseComment(text, comment)]; the second argument is
    [None] when the caller passes none (or [undefined]), in which case a new
    comment is filled. *)
Definition parseComment (text : string) (comment : option Comment) : Comment :=
  ps_comment (parseLines (commentLines text) comment).

(** ** Reflections *)

(** Modelled from the spec: the kinds of reflections the plugin
    distinguishes ([ReflectionKind] is declared outside this unit). *)
Inductive ReflectionKind : Type :=
  | KModule
  | KFunction
  | KMethod
  | KTypeParameter
  | KCallSignature
  | KParameter
  | KOther.

Definition ReflectionKind_eqb (a b : ReflectionKind) : bool :=
  match a, b with
  | KModule, KModule | KFunction, KFunction | KMethod, KMethod
  | KTypeParameter, KTypeParameter | KCallSignature, KCallSignature
  | KParameter, KParameter | KOther, KOther => true
  | _, _ => false
  end.

(** [ReflectionKind.FunctionOrMethod] is the union of two kinds. *)
Definition FunctionOrMethod : list ReflectionKind := [KFunction; KMethod].

(** Modelled from the spec: the visibility flags of a reflection
    ([ReflectionFlag] and [setFlag] are declared outside this unit). *)
Inductive ReflectionFlag : Type := Private | Protected | Public.

Record ReflectionFlags : Type := mkFlags {
  isPrivate : bool;
  isProtected : bool;
  isPublic : bool
}.

(** Modelled from the spec: the part of a [Reflection] the plugin reads and
    writes (the class is declared outside this unit). *)
Record Reflection : Type := mkReflection {
  id : Z;
  name : string;
  kind : ReflectionKind;
  flags : ReflectionFlags;
  comment : option Comment
}.

(** Modelled from the spec: [reflection.kindOf(kind)], whether the kind of
    the reflection is one of the given kinds. *)
Definition kindOf (r : Reflection) (kinds : list ReflectionKind) : bool :=
  existsb (ReflectionKind_eqb (kind r)) kinds.

(** Modelled from the spec: [reflection.setFlag(flag)] sets the visibility
    flag and leaves the others as they are. *)
Definition setFlag (r : Reflection) (f : ReflectionFlag) : Reflection :=
  let fl := flags r in
  mkReflection (id r) (name r) (kind r)
    match f with
    | Private => mkFlags true (isProtected fl) (isPublic fl)
    | Protected => mkFlags (isPrivate fl) true (isPublic fl)
    | Public => mkFlags (isPrivate fl) (isProtected fl) true
    end
    (comment r).

(** [reflection.comment = c]. *)
Definition set_comment (r : Reflection) (c : option Comment) : Reflection :=
  mkReflection (id r) (name r) (kind r) (flags r) c.

(** A signature is a reflection with a parameter list (which may be
    [undefined]); a declaration is a reflection with the signatures that
    [getAllSignatures()] returns, in declaration order. *)
Record SignatureReflection : Type := mkSignature {
  s_base : Reflection;
  parameters : option (list Reflection)
}.

Record DeclarationReflection : Type := mkDeclaration {
  d_base : Reflection;
  signatures : list SignatureReflection
}.

(** ** storeModuleComment, onBegin, onBeginResolve *)

(** [IModuleComment].  [reflection] is a reference to a node of the tree; it
    is kept as the id of that node. *)
Record IModuleComment : Type := mkModuleComment {
  reflection : Z;
  fullText : string;
  isPreferred : bool
}.

Definition hasPreferredMarker (comment : string) : bool :=
  negb (Z.eqb (Str.indexOf (Str.toLowerCase comment) "@preferred") (-1)).

Definition storeModuleComment (comments : gmap Z IModuleComment)
    (comment : string) (r : Reflection) : gmap Z IModuleComment :=
  let preferred := hasPreferredMarker comment in
  match comments !! id r with
  | Some info =>
      if negb preferred &&
         (isPreferred info ||
          Nat.ltb (String.length comment) (String.length (fullText info)))
      then comments
      else <[id r := mkModuleComment (reflection info) comment preferred]>
             comments
  | None => <[id r := mkModuleComment (id r) comment preferred]> comments
  end.

Definition onBegin : gmap Z IModuleComment := ∅.

(** The comment [onBeginResolve] assigns for a stored candidate. *)
Definition moduleComment (info : IModuleComment) : Comment :=
  removeTags (parseComment (fullText info) None) "preferred".

(** [onBeginResolve]: every stored candidate is parsed and assigned to the
    reflection it targets; [project] holds the reflections by id. *)
Definition onBeginResolve (comments : gmap Z IModuleComment)
    (project : gmap Z Reflection) : gmap Z Reflection :=
  map_fold
    (fun _ info proj =>
       alter (fun r => set_comment r (Some (moduleComment info)))
             (reflection info) proj)
    project comments.

(** ** applyAccessModifiers *)

(** One of the three [if] blocks of [applyAccessModifiers].  The comment is
    passed along with the reflection because it need not be the
    reflection's own. *)
Definition applyAccessModifier (f : ReflectionFlag) (tag : string)
    (rc : Reflection * Comment) : Reflection * Comment :=
  let '(r, c) := rc in
  if hasTag c tag then (setFlag r f, removeTags c tag) else (r, c).

Definition applyAccessModifiers (r : Reflection) (c : Comment)
    : Reflection * Comment :=
  applyAccessModifier Public "public"
    (applyAccessModifier Protected "protected"
       (applyAccessModifier Private "private" (r, c))).

(** ** onCreateTypeParameter *)

(** [parent] is [reflection.parent]; both nodes are returned.
    [comment.tags.indexOf(tag)] is the position [getTag] found. *)
Definition onCreateTypeParameter (parent r : Reflection)
    : Reflection * Reflection :=
  match comment parent with
  | Some c =>
      match getTagIndex c "param" (Some (name r)) with
      | Some i =>
          match tagsOf c !! i with
          | Some tag =>
              (set_comment parent
                 (Some (set_tags c (Some (delete i (tagsOf c))))),
               set_comment r (Some (new_Comment (text tag))))
          | None => (parent, r)
          end
      | None => (parent, r)
      end
  | None => (parent, r)
  end.

(** ** onDeclaration and onFunctionImplementation *)

(** [rawComment] is the result of [CommentPlugin.getComment(event.node)],
    [None] for [null].  The plugin's table and the reflection are returned.
    In the first branch the parsed comment is the reflection's own object
    when it had one (it is then updated in place), and a new object that is
    never stored otherwise. *)
Definition onDeclaration (comments : gmap Z IModuleComment)
    (rawComment : option string) (r : Reflection)
    : gmap Z IModuleComment * Reflection :=
  match rawComment with
  | None | Some EmptyString => (comments, r)
  | Some raw =>
      if kindOf r FunctionOrMethod then
        let parsed := parseComment raw (comment r) in
        let '(r', parsed') := applyAccessModifiers r parsed in
        (comments,
         match comment r with
         | Some _ => set_comment r' (Some parsed')
         | None => r'
         end)
      else if kindOf r [KModule] then
        (storeModuleComment comments raw r, r)
      else
        let parsed := parseComment raw (comment r) in
        let '(r', parsed') := applyAccessModifiers r parsed in
        (comments, set_comment r' (Some parsed'))
  end.

Definition onFunctionImplementation (rawComment : option string)
    (r : Reflection) : Reflection :=
  match rawComment with
  | None | Some EmptyString => r
  | Some raw => set_comment r (Some (parseComment raw (comment r)))
  end.

(** ** onResolve *)

(** [if (c && c.hasTag('returns')) { c.returns = c.getTag('returns').text;
    removeTags(c, 'returns') }]. *)
Definition moveReturns (c : option Comment) : option Comment :=
  match c with
  | Some c =>
      if hasTag c "returns" then
        Some (removeTags
                (set_returns c (text <$> getTag c "returns" None)) "returns")
      else Some c
  | None => None
  end.

(** [a || b] on two strings. *)
Definition or_string (a b : string) : string :=
  match a with
  | EmptyString => b
  | _ => a
  end.

(** The three assignments guarded by [if (comment)]. *)
Definition inheritComment (comment childComment : option Comment)
    : option Comment :=
  match comment with
  | Some c =>
      let cc := default (new_Comment "") childComment in
      Some (mkComment (or_string (shortText cc) (shortText c))
                      (or_string (c_text cc) (c_text c))
                      (js_or (returns cc) (returns c))
                      (tags cc))
  | None => childComment
  end.

(** The callback of [signature.parameters.forEach]. *)
Definition resolveParameter (comment childComment : option Comment)
    (parameter : Reflection) : Reflection :=
  let tag := c ← childComment; getTag c "param" (Some (name parameter)) in
  let tag :=
    match comment, tag with
    | Some c, None => getTag c "param" (Some (name parameter))
    | _, _ => tag
    end in
  match tag with
  | Some t => set_comment parameter (Some (new_Comment (text t)))
  | None => parameter
  end.

(** The callback of [signatures.forEach]; [declComment] is the variable
    [comment] of [onResolve]: the declaration's comment after its [returns]
    tag was moved. *)
Definition resolveSignature (declComment : option Comment)
    (signature : SignatureReflection) : SignatureReflection :=
  let childComment := moveReturns (comment (s_base signature)) in
  let childComment := inheritComment declComment childComment in
  let params :=
    map (resolveParameter declComment childComment) <$> parameters signature in
  mkSignature
    (set_comment (s_base signature) (removeTags_opt childComment "param"))
    params.

(** [onResolve] on a [DeclarationReflection] (any other reflection is left
    alone by the [instanceof] test). *)
Definition onResolve (d : DeclarationReflection) : DeclarationReflection :=
  match signatures d with
  | [] => d
  | sigs =>
      let comment := moveReturns (comment (d_base d)) in
      let sigs' := map (resolveSignature comment) sigs in
      mkDeclaration (set_comment (d_base d) (removeTags_opt comment "param"))
                    sigs'
  end.

(** [storeModuleComment] called once per discovered comment, in order. *)
Definition recordAll (comments : gmap Z IModuleComment)
    (found : list (string * Reflection)) : gmap Z IModuleComment :=
  fold_left (fun cs cr => storeModuleComment cs cr.1 cr.2) found comments.

(** A signature comment that carries no return documentation of its own:
    it is absent, or it has no [returns] tag and an empty or [undefined]
    [returns] field. *)
Definition noReturns (c : option Comment) : bool :=
  match c with
  | Some c => negb (hasTag c "returns") && negb (truthy (returns c))
  | None => true
  end.

(** ** Predicates on tags used to state what [removeTags] keeps *)

(** The tags [removeTags(comment, name)] leaves in place. *)
Definition otherName (name : string) (t : CommentTag) : bool :=
  negb (String.eqb (tagName t) name).

(** The tags [applyAccessModifiers] consumes. *)
Definition isAccessTag (t : CommentTag) : bool :=
  String.eqb (tagName t) "private" || String.eqb (tagName t) "protected"
  || String.eqb (tagName t) "public".

(** ** Sample reflections *)

(** A module; a generic declaration documented with [@param T] and its type
    parameter; a function documented with [@param x] and a signature that
    documents [x] itself. *)
Definition moduleA : Reflection :=
  mkReflection 7 "A" KModule (mkFlags false false false) None.

Definition genericParent : Reflection :=
  mkReflection 3 "List" KOther (mkFlags false false false)
    (Some (mkComment "A list." "" None
             (Some [mkTag "param" "T" "the element type";
                    mkTag "param" "U" "the key type"]))).

Definition typeParameterT : Reflection :=
  mkReflection 4 "T" KTypeParameter (mkFlags false false false) None.

Definition sigLevel : SignatureReflection :=
  mkSignature
    (mkReflection 11 "f" KCallSignature (mkFlags false false false)
       (Some (mkComment "" "" None
                (Some [mkTag "param" "x" "sig-level"]))))
    (Some [mkReflection 12 "x" KParameter (mkFlags false false false) None]).

Definition declLevel : DeclarationReflection :=
  mkDeclaration
    (mkReflection 10 "f" KFunction (mkFlags false false false)
       (Some (mkComment "Does it." "" None
                (Some [mkTag "param" "x" "decl-level"]))))
    [sigLevel].

(** A function with a [@returns] tag and two overloads, the first with a
    [@returns] tag of its own. *)
Definition sigS : SignatureReflection :=
  mkSignature
    (mkReflection 21 "g" KCallSignature (mkFlags false false false)
       (Some (mkComment "First." "" None (Some [mkTag "returns" "" "S"]))))
    None.

Definition sigPlain : SignatureReflection :=
  mkSignature
    (mkReflection 22 "g" KCallSignature (mkFlags false false false) None)
    None.

Definition declR : Reflection :=
  mkReflection 20 "g" KFunction (mkFlags false false false)
    (Some (mkComment "Does it." "" None (Some [mkTag "returns" "" "R"]))).

(** A method that has no comment object yet. *)
Definition methodM : Reflection :=
  mkReflection 30 "m" KMethod (mkFlags false false false) None.

(** ** The paragraphs of a comment without tags *)

Definition LF : string := String "010" "".

(** The normalized lines of a comment: what the callback of [forEach] works
    on after its two replacements. *)
Definition bodyLines (text : string) : list string :=
  map normalizeLine (commentLines text).

Definition isBlank (line : string) : bool := String.eqb line "".

(** The lines without their leading blank lines. *)
Fixpoint skipBlank (ls : list string) : list string :=
  match ls with
  | [] => []
  | l :: ls' => if isBlank l then skipBlank ls' else ls
  end.

(** The lines before the first blank line. *)
Fixpoint firstParagraph (ls : list string) : list string :=
  match ls with
  | [] => []
  | l :: ls' => if isBlank l then [] else l :: firstParagraph ls'
  end.

(** The lines after the first blank line. *)
Fixpoint afterParagraph (ls : list string) : list string :=
  match ls with
  | [] => []
  | l :: ls' => if isBlank l then ls' else afterParagraph ls'
  end.

(** The split as the specification words it: leading blank lines are
    dropped, what precedes the first blank line after them is the short
    text, and everything after that blank line is the long text. *)
Definition spec_shortText (ls : list string) : string :=
  Str.joinLines (firstParagraph (skipBlank ls)).

Definition spec_text (ls : list string) : string :=
  Str.joinLines (afterParagraph (skipBlank ls)).

(** The long text [parseComment] builds: the blank lines that directly
    follow the split are dropped as well. *)
Definition longText (ls : list string) : string :=
  Str.joinLines (skipBlank (afterParagraph (skipBlank ls))).

(** The comment of the round-trip example. *)
Definition exampleComment : string :=
  String.append "/** A. "
    (String.append LF
       (String.append " * @param x the value"
          (String.append LF
             (String.append " * @returns done"
                (String.append LF " */"))))).

(** A comment whose first paragraph is followed by two blank lines. *)
Definition twoBlankLines : string :=
  String.append "/** A"
    (String.append LF (String.append LF (String.append LF "B */"))).

(** A normalized line that does not start a tag. *)
Definition noTag (line : string) : Prop := tagMatch line = None.

(** A comment with a [@param] line that names no parameter. *)
Definition bareParam : string :=
  String.append "/** Adds."
    (String.append LF (String.append " * @param" (String.append LF " */"))).

(** The raw comment of a private method. *)
Definition privateComment : string :=
  String.append "/** Runs."
    (String.append LF (String.append " * @private" (String.append LF " */"))).

(** ** The tags of a comment, read off its lines *)

(** A line that starts a tag opens a new tag, built by [parseTag]; every
    following line that does not start a tag extends the text of the open
    tag; lines before the first tag line belong to the description.  [cur]
    is the open tag, if any. *)
Fixpoint tagsOfLines (cur : option CommentTag) (lines : list string)
    : list CommentTag :=
  match lines with
  | [] => option_list cur
  | l :: ls =>
      match tagMatch l with
      | Some w => option_list cur ++ tagsOfLines (Some (parseTag w l)) ls
      | None => tagsOfLines (appendTagText l <$> cur) ls
      end
  end.

(** The description a state holds: short and long text. *)
Definition description (st : ParseState) : string * string :=
  (shortText (ps_comment st), c_text (ps_comment st)).

(** ** Predicates used to state what the hooks leave alone *)

(** Two states of a reflection that differ at most in the comment. *)
Definition sameButComment (r r' : Reflection) : Prop :=
  id r' = id r ∧ name r' = name r ∧ kind r' = kind r ∧ flags r' = flags r.

(** Two states of a signature: same node, same parameters, comments apart. *)
Definition sameSignature (s s' : SignatureReflection) : Prop :=
  sameButComment (s_base s) (s_base s')
  ∧ option_Forall2 (Forall2 sameButComment) (parameters s) (parameters s').

(** A comment, if there is one, without [returns] and [param] tags. *)
Definition cleanComment (c : option Comment) : bool :=
  match c with
  | Some c => negb (hasTag c "returns") && negb (hasTag c "param")
  | None => true
  end.

(** ** getComment *)

#[local] Set Warnings "-register-all".

(** The part of the TypeScript syntax tree [getComment] reads.  [pos] and
    [end] are positions in the text of the source file; [name] is read on
    module declarations only. *)
Module Ts.

Inductive SyntaxKind : Type :=
  | ModuleDeclaration
  | VariableStatement
  | SourceFile
  | OtherSyntax.

Definition SyntaxKind_eqb (a b : SyntaxKind) : bool :=
  match a, b with
  | ModuleDeclaration, ModuleDeclaration
  | VariableStatement, VariableStatement
  | SourceFile, SourceFile | OtherSyntax, OtherSyntax => true
  | _, _ => false
  end.

Record TextRange : Type := mkRange { pos : Z; end_ : Z }.

Inductive Node : Type := mkNode {
  kind : SyntaxKind;
  name : TextRange;
  nextContainer : option Node;
  parent : option Node
}.

End Ts.

(** [s.substring(a, b)]: both positions are clamped to the string and
    swapped when they come in the wrong order. *)
Definition substring (s : string) (a b : Z) : string :=
  let len := Z.of_nat (String.length s) in
  let a := Z.max 0 (Z.min a len) in
  let b := Z.max 0 (Z.min b len) in
  String.substring (Z.to_nat (Z.min a b))
    (Z.to_nat (Z.max a b - Z.min a b)) s.

(** Is [inner] written directly after the name of [outer] and a dot, as in
    [module Outer.Inner]?  This is [a.name.end + 1 == b.name.pos]. *)
Definition adjacent (outer inner : Ts.Node) : bool :=
  Z.eqb (Ts.end_ (Ts.name outer) + 1) (Ts.pos (Ts.name inner)).

(** The [while] loop that pulls the comment of a cascaded module back: it
    climbs from a module to its parent as long as the parent is a module
    declaration whose name ends right before the name of the current one. *)
Fixpoint pullBack (target : Ts.Node) : Ts.Node :=
  match target with
  | Ts.mkNode _ nm _ (Some b) =>
      if Ts.SyntaxKind_eqb (Ts.kind b) Ts.ModuleDeclaration then
        if Z.eqb (Ts.pos nm) (Ts.end_ (Ts.name b) + 1) then pullBack b
        else target
      else target
  | _ => target
  end.

Section GetComment.

(** The two functions of the TypeScript compiler that [getComment] calls:
    the text of the source file of a node, and the doc comment ranges of a
    node ([None] for [undefined]). *)
Variable sourceText : Ts.Node → string.
Variable getJsDocComments : Ts.Node → option (list Ts.TextRange).

(** [CommentPlugin.getComment(node)], [None] for [null]. *)
Definition getComment (node : Ts.Node) : option string :=
  let isModule := Ts.SyntaxKind_eqb (Ts.kind node) Ts.ModuleDeclaration in
  if isModule &&
     match Ts.nextContainer node with
     | Some b =>
         Ts.SyntaxKind_eqb (Ts.kind b) Ts.ModuleDeclaration && adjacent node b
     | None => false
     end
  then None
  else
    let target := if isModule then pullBack node else node in
    let target :=
      match Ts.parent node with
      | Some p =>
          if Ts.SyntaxKind_eqb (Ts.kind p) Ts.VariableStatement then p
          else target
      | None => target
      end in
    match getJsDocComments target with
    | Some (c0 :: cs) =>
        if Ts.SyntaxKind_eqb (Ts.kind node) Ts.SourceFile then
          if Nat.eqb (length (c0 :: cs)) 1 then None
          else Some (substring (sourceText node) (Ts.pos c0) (Ts.end_ c0))
        else
          let c := List.last cs c0 in
          Some (substring (sourceText node) (Ts.pos c) (Ts.end_ c))
    | _ => None
    end.

End GetComment.

(** The modules of one cascaded declaration [module A.B.C], seen from the
    innermost: [cascade top n] when climbing from [n] through adjacent
    module declarations leads to [top]. *)
Inductive cascade (top : Ts.Node) : Ts.Node → Prop :=
  | cascade_top : cascade top top
  | cascade_step k nm nc b :
      cascade top b →
      Ts.kind b = Ts.ModuleDeclaration →
      Ts.pos nm = (Ts.end_ (Ts.name b) + 1)%Z →
      cascade top (Ts.mkNode k nm nc (Some b)).

(** The node has no parent that is a module written right before it. *)
Definition isTop (n : Ts.Node) : bool :=
  match Ts.parent n with
  | Some b =>
      negb (Ts.SyntaxKind_eqb (Ts.kind b) Ts.ModuleDeclaration
            && Z.eqb (Ts.pos (Ts.name n)) (Ts.end_ (Ts.name b) + 1))
  | None => true
  end.

(** The module is the outer part of a cascaded declaration: its next
    container is a module declaration written right after its name. *)
Definition cascades (node : Ts.Node) : bool :=
  Ts.SyntaxKind_eqb (Ts.kind node) Ts.ModuleDeclaration &&
  match Ts.nextContainer node with
  | Some b =>
      Ts.SyntaxKind_eqb (Ts.kind b) Ts.ModuleDeclaration && adjacent node b
  | None => false
  end.

(** The parent of the node is a variable statement. *)
Definition inVariableStatement (node : Ts.Node) : bool :=
  match Ts.parent node with
  | Some p => Ts.SyntaxKind_eqb (Ts.kind p) Ts.VariableStatement
  | None => false
  end.

(** The two nodes of [module A.B {}] in a file that starts with a doc
    comment, the text of the file and the doc comments of its nodes. *)
Definition cascadeText : string := "/**d*/ module A.B {}".

Definition moduleOuter : Ts.Node :=
  Ts.mkNode Ts.ModuleDeclaration (Ts.mkRange 15 16)
    (Some (Ts.mkNode Ts.ModuleDeclaration (Ts.mkRange 17 18) None None))
    None.

Definition moduleInner : Ts.Node :=
  Ts.mkNode Ts.ModuleDeclaration (Ts.mkRange 17 18) None (Some moduleOuter).

Definition cascadeDocs (node : Ts.Node) : option (list Ts.TextRange) :=
  if Z.eqb (Ts.pos (Ts.name node)) 15 then Some [Ts.mkRange 0 6] else None.

(** * Properties *)

(** ** ModuleCommentSelector *)

Section ModuleComments.

Implicit Types (comments : gmap Z IModuleComment) (r : Reflection).

Lemma storeModuleComment_other comments comment r (i : Z) :
  i ≠ id r → storeModuleComment comments comment r !! i = comments !! i.
Proof.
  intros Hne. unfold storeModuleComment.
  destruct (comments !! id r) as [info|] eqn:E.
  - destruct (_ && _); [done|]. by rewrite lookup_insert_ne.
  - by rewrite lookup_insert_ne.
Qed.

(** A preferred comment always becomes the stored candidate. *)
Lemma storeModuleComment_preferred comments comment r :
  hasPreferredMarker comment = true →
  ∃ info, storeModuleComment comments comment r !! id r = Some info
          ∧ fullText info = comment ∧ isPreferred info = true.
Proof.
  intros Hp. unfold storeModuleComment. rewrite Hp. simpl.
  destruct (comments !! id r) as [info|] eqn:E;
    rewrite lookup_insert_eq; eauto.
Qed.

(** A stored preferred candidate is only ever replaced by a preferred one. *)
Lemma storeModuleComment_keeps_preferred comments comment r (i : Z) info :
  comments !! i = Some info → isPreferred info = true →
  ∃ info', storeModuleComment comments comment r !! i = Some info'
           ∧ isPreferred info' = true
           ∧ (info' = info
              ∨ (fullText info' = comment ∧ id r = i
                 ∧ hasPreferredMarker comment = true)).
Proof.
  intros Hi Hp. destruct (decide (i = id r)) as [->|Hne].
  - unfold storeModuleComment. rewrite Hi, Hp.
    destruct (hasPreferredMarker comment) eqn:Hc; simpl.
    + rewrite lookup_insert_eq. eexists. split; [done|]. simpl. eauto.
    + eauto.
  - rewrite storeModuleComment_other by done. eauto.
Qed.

Lemma recordAll_keeps_preferred found : ∀ comments (i : Z) info,
  comments !! i = Some info → isPreferred info = true →
  ∃ info', recordAll comments found !! i = Some info'
           ∧ isPreferred info' = true
           ∧ (info' = info
              ∨ ∃ r, (fullText info', r) ∈ found ∧ id r = i
                     ∧ hasPreferredMarker (fullText info') = true).
Proof.
  induction found as [|[c r] found IH]; intros comments i info Hi Hp; simpl.
  - eauto.
  - destruct (storeModuleComment_keeps_preferred comments c r i info Hi Hp)
      as (info1 & H1 & Hp1 & Hor).
    destruct (IH _ _ _ H1 Hp1) as (info2 & H2 & Hp2 & Hor2).
    exists info2. split; [done|]. split; [done|].
    destruct Hor2 as [->|(r2 & Hin & Hid & Hm)].
    + destruct Hor as [->|(Ht & Hid & Hm)]; [by left|].
      right. exists r. rewrite Ht. split; [left|done].
    + right. exists r2. split; [by right|done].
Qed.

End ModuleComments.

(** C4.  Whatever comments were recorded since [onBegin], in whatever order
    and of whatever lengths: if one of those recorded for the module with id
    [i] contains the marker ["@preferred"] (in any letter case), then the
    candidate the table holds for [i] when [onBeginResolve] runs is marked
    preferred, and its text is one of the recorded comments of [i] that
    contain the marker. *)
Theorem preferred_candidate_is_retained
    (found : list (string * Reflection)) (i : Z) :
  (∃ c r, (c, r) ∈ found ∧ id r = i ∧ hasPreferredMarker c = true) →
  ∃ info, recordAll onBegin found !! i = Some info
          ∧ isPreferred info = true
          ∧ hasPreferredMarker (fullText info) = true
          ∧ ∃ r, (fullText info, r) ∈ found ∧ id r = i.
Proof.
  generalize onBegin as comments.
  induction found as [|[c0 r0] found IH]; intros comments (c & r & Hin & Hid & Hm).
  - by apply elem_of_nil in Hin.
  - apply elem_of_cons in Hin as [Heq|Hin]; simpl.
    + injection Heq as <- <-.
      destruct (storeModuleComment_preferred comments c r Hm)
        as (info & Hi & Ht & Hp).
      rewrite Hid in Hi.
      destruct (recordAll_keeps_preferred found _ _ _ Hi Hp)
        as (info' & Hi' & Hp' & Hor).
      exists info'. split; [done|]. split; [done|].
      destruct Hor as [->|(r' & Hin' & Hid' & Hm')].
      * rewrite Ht. split; [done|]. exists r. split; [left|done].
      * split; [done|]. exists r'. split; [by right|done].
    + destruct (IH (storeModuleComment comments c0 r0)) as (info & ? & ? & ? & r' & ? & ?).
      { eauto 6. }
      exists info. repeat split; try done. exists r'. split; [by right|done].
Qed.

Lemma preferred_candidate_is_retained_witness :
  ∃ info,
    recordAll onBegin
      [("/** short */", moduleA); ("/** a much longer block */", moduleA);
       ("/** final @Preferred */", moduleA); ("/** later on */", moduleA)]
      !! 7%Z = Some info
    ∧ isPreferred info = true
    ∧ hasPreferredMarker (fullText info) = true
    ∧ ∃ r, (fullText info, r) ∈
             [("/** short */", moduleA); ("/** a much longer block */", moduleA);
              ("/** final @Preferred */", moduleA); ("/** later on */", moduleA)]
           ∧ id r = 7%Z.
Proof.
  apply preferred_candidate_is_retained.
  exists "/** final @Preferred */", moduleA.
  split; [|split; reflexivity].
  do 2 right. left.
Defined.

(** The stored candidate is kept, and the table with it, when the new
    comment is not preferred and the stored one is preferred or strictly
    longer. *)
Lemma storeModuleComment_keeps
    (comments : gmap Z IModuleComment) (comment : string) (r : Reflection)
    (info : IModuleComment) :
  comments !! id r = Some info →
  hasPreferredMarker comment = false →
  isPreferred info = true
  ∨ String.length comment < String.length (fullText info) →
  storeModuleComment comments comment r = comments.
Proof.
  intros Hi Hc Hor. unfold storeModuleComment. rewrite Hi, Hc. simpl.
  destruct Hor as [-> | Hlt]; [done|].
  apply Nat.ltb_lt in Hlt. by rewrite Hlt, orb_true_r.
Qed.

(** C1, as the code has it.  When a candidate is offered for a module whose
    stored candidate has the same preference and a text of the same length,
    the new text replaces the stored one: on a tie the later candidate is
    retained (the target reflection stays the one recorded first, and the
    candidates of other modules are untouched).  This covers the tie of two
    non-preferred candidates and the tie of two preferred ones. *)
Theorem storeModuleComment_tie_replaces
    (comments : gmap Z IModuleComment) (comment : string) (r : Reflection)
    (info : IModuleComment) :
  comments !! id r = Some info →
  hasPreferredMarker comment = isPreferred info →
  String.length comment = String.length (fullText info) →
  storeModuleComment comments comment r
  = <[id r := mkModuleComment (reflection info) comment (isPreferred info)]>
      comments.
Proof.
  intros Hi Hc Hlen. unfold storeModuleComment.
  rewrite Hi, Hc, Hlen, Nat.ltb_irrefl, orb_false_r.
  by destruct (isPreferred info).
Qed.

Lemma storeModuleComment_tie_replaces_witness :
  storeModuleComment (storeModuleComment onBegin "/** first */" moduleA)
    "/** later */" moduleA
  = <[7%Z := mkModuleComment 7 "/** later */" false]>
      (storeModuleComment onBegin "/** first */" moduleA).
Proof.
  apply (storeModuleComment_tie_replaces
           (storeModuleComment onBegin "/** first */" moduleA)
           "/** later */" moduleA (mkModuleComment 7 "/** first */" false));
    reflexivity.
Defined.

(** C1, as the claim states it, fails: two non-preferred comments of equal
    length recorded for the same module leave the second one stored, not
    the first. *)
Lemma tie_does_not_keep_first :
  ¬ (∀ (comments : gmap Z IModuleComment) (comment : string)
       (r : Reflection) (info : IModuleComment),
       comments !! id r = Some info →
       hasPreferredMarker comment = false → isPreferred info = false →
       String.length comment = String.length (fullText info) →
       storeModuleComment comments comment r !! id r = Some info).
Proof.
  intros H.
  specialize (H (storeModuleComment onBegin "/** first */" moduleA)
                "/** later */" moduleA
                (mkModuleComment 7 "/** first */" false)
                eq_refl eq_refl eq_refl eq_refl).
  vm_compute in H. discriminate H.
Qed.

(** ** removeTags and AccessModifierApplier *)

Section RemoveTags.

(** The splice loop keeps exactly the tags with another name, in order. *)
Lemma removeTags_loop_filter name rest : ∀ kept,
  removeTags_loop name kept rest = kept ++ List.filter (otherName name) rest.
Proof.
  induction rest as [|t rest IH]; intros kept; simpl.
  - by rewrite app_nil_r.
  - unfold otherName at 1. destruct (String.eqb (tagName t) name); simpl.
    + apply IH.
    + rewrite IH. by rewrite <- app_assoc.
Qed.

Lemma tags_removeTags c name :
  tags (removeTags c name) = List.filter (otherName name) <$> tags c.
Proof.
  unfold removeTags. destruct (tags c) as [ts|] eqn:E; simpl.
  - by rewrite removeTags_loop_filter.
  - by rewrite E.
Qed.

Lemma tagsOf_removeTags c name :
  tagsOf (removeTags c name) = List.filter (otherName name) (tagsOf c).
Proof.
  unfold tagsOf. rewrite tags_removeTags. by destruct (tags c).
Qed.

Lemma hasTag_filter c name (p : CommentTag → bool) ts :
  tagsOf c = List.filter p ts →
  (∀ t, String.eqb (tagName t) name = true → p t = false) →
  hasTag c name = false.
Proof.
  intros Hts Hp. unfold hasTag. rewrite Hts. clear Hts.
  induction ts as [|t ts IH]; simpl; [done|].
  destruct (p t) eqn:Ept; simpl; [|exact IH].
  destruct (String.eqb (tagName t) name) eqn:En; [|exact IH].
  rewrite (Hp t En) in Ept. discriminate.
Qed.

Lemma hasTag_removeTags c name : hasTag (removeTags c name) name = false.
Proof.
  apply (hasTag_filter _ _ (otherName name) (tagsOf c)).
  - apply tagsOf_removeTags.
  - intros t Ht. unfold otherName. by rewrite Ht.
Qed.

(** Without a tag of that name there is nothing to filter out. *)
Lemma filter_otherName_id name ts :
  existsb (fun t => String.eqb (tagName t) name) ts = false →
  List.filter (otherName name) ts = ts.
Proof.
  induction ts as [|t ts IH]; simpl; [done|].
  intros H. apply orb_false_iff in H as [H1 H2].
  unfold otherName at 1. rewrite H1. simpl. by rewrite IH.
Qed.

End RemoveTags.

Section AccessModifiers.

Lemma applyAccessModifier_spec f name r c :
  applyAccessModifier f name (r, c)
  = (if hasTag c name then setFlag r f else r,
     mkComment (shortText c) (c_text c) (returns c)
               (List.filter (otherName name) <$> tags c)).
Proof.
  unfold applyAccessModifier. destruct (hasTag c name) eqn:E.
  - f_equal. unfold removeTags.
    destruct (tags c) as [ts|] eqn:Et; simpl.
    + unfold set_tags. by rewrite removeTags_loop_filter.
    + destruct c; simpl in *; by subst.
  - f_equal. unfold hasTag, tagsOf in E.
    destruct c as [s t rt [ts|]]; simpl in *; [|done].
    by rewrite filter_otherName_id.
Qed.

Lemma filter_access ts :
  List.filter (otherName "public")
    (List.filter (otherName "protected")
       (List.filter (otherName "private") ts))
  = List.filter (fun t => negb (isAccessTag t)) ts.
Proof.
  induction ts as [|t ts IH]; simpl; [done|].
  unfold otherName at 3, isAccessTag at 1.
  destruct (String.eqb (tagName t) "private"); simpl; [done|].
  unfold otherName at 2.
  destruct (String.eqb (tagName t) "protected"); simpl; [done|].
  unfold otherName at 1.
  destruct (String.eqb (tagName t) "public"); simpl; [done|].
  by rewrite IH.
Qed.

Lemma tags_applyAccessModifiers r c :
  tags (applyAccessModifiers r c).2
  = List.filter (fun t => negb (isAccessTag t)) <$> tags c.
Proof.
  unfold applyAccessModifiers.
  rewrite !applyAccessModifier_spec. simpl.
  destruct (tags c) as [ts|]; simpl; [|done].
  by rewrite filter_access.
Qed.

Lemma hasTag_after_access r c name :
  isAccessTag (mkTag name "" "") = true →
  hasTag (applyAccessModifiers r c).2 name = false.
Proof.
  intros Hn.
  apply (hasTag_filter _ _ (fun t => negb (isAccessTag t)) (tagsOf c)).
  - unfold tagsOf. rewrite tags_applyAccessModifiers. by destruct (tags c).
  - intros t Ht. apply String.eqb_eq in Ht.
    unfold isAccessTag in *. simpl in Hn. rewrite Ht, Hn. done.
Qed.

Lemma applyAccessModifier_absent f name r c :
  hasTag c name = false → applyAccessModifier f name (r, c) = (r, c).
Proof. intros H. unfold applyAccessModifier. by rewrite H. Qed.

(** Removing the tags of one name does not change whether a tag of another
    name is present. *)
Lemma existsb_filter_other name other ts :
  String.eqb name other = false →
  existsb (fun t => String.eqb (tagName t) name)
          (List.filter (otherName other) ts)
  = existsb (fun t => String.eqb (tagName t) name) ts.
Proof.
  intros Hne. induction ts as [|t ts IH]; simpl; [done|].
  unfold otherName at 1.
  destruct (String.eqb (tagName t) other) eqn:Eo; simpl.
  - apply String.eqb_eq in Eo. rewrite Eo, String.eqb_sym, Hne. apply IH.
  - by rewrite IH.
Qed.

Lemma flags_applyAccessModifiers r c :
  flags (applyAccessModifiers r c).1
  = mkFlags (isPrivate (flags r) || hasTag c "private")
            (isProtected (flags r) || hasTag c "protected")
            (isPublic (flags r) || hasTag c "public").
Proof.
  unfold applyAccessModifiers.
  rewrite !applyAccessModifier_spec. simpl.
  unfold hasTag, tagsOf. simpl.
  destruct r as [i n k [a b d] oc].
  destruct (tags c) as [ts|]; simpl.
  - rewrite !existsb_filter_other by reflexivity.
    repeat match goal with
           | |- context [existsb ?f ts] => destruct (existsb f ts); simpl
           end;
      by rewrite ?orb_true_r, ?orb_false_r.
  - by rewrite !orb_false_r.
Qed.

End AccessModifiers.

(** C7.  [applyAccessModifiers] leaves in the comment exactly the tags that
    are not named [private], [protected] or [public], in their order: every
    occurrence of the three names is removed, not only the first.  The
    reflection gets the flag of each name that occurred.  Applied once more
    to its own result it changes neither the comment nor the reflection. *)
Theorem applyAccessModifiers_removes_all_and_idempotent
    (r : Reflection) (c : Comment) :
  tags (applyAccessModifiers r c).2
  = List.filter (fun t => negb (isAccessTag t)) <$> tags c
  ∧ Forall (fun t => tagName t ≠ "private" ∧ tagName t ≠ "protected"
                     ∧ tagName t ≠ "public")
           (tagsOf (applyAccessModifiers r c).2)
  ∧ flags (applyAccessModifiers r c).1
    = mkFlags (isPrivate (flags r) || hasTag c "private")
              (isProtected (flags r) || hasTag c "protected")
              (isPublic (flags r) || hasTag c "public")
  ∧ applyAccessModifiers (applyAccessModifiers r c).1
                         (applyAccessModifiers r c).2
    = applyAccessModifiers r c.
Proof.
  split; [apply tags_applyAccessModifiers|].
  split; [|split].
  - unfold tagsOf. rewrite tags_applyAccessModifiers.
    destruct (tags c) as [ts|]; simpl; [|constructor].
    apply Forall_forall. intros t Ht.
    apply list_elem_of_In, filter_In in Ht as [_ Ht].
    unfold isAccessTag in Ht.
    apply negb_true_iff, orb_false_iff in Ht as [Ht H3].
    apply orb_false_iff in Ht as [H1 H2].
    apply String.eqb_neq in H1, H2, H3. done.
  - apply flags_applyAccessModifiers.
  - destruct (applyAccessModifiers r c) as [r1 c1] eqn:E. simpl.
    unfold applyAccessModifiers.
    assert (H : ∀ name, isAccessTag (mkTag name "" "") = true →
                        hasTag c1 name = false).
    { intros name Hn. change c1 with (r1, c1).2. rewrite <- E.
      by apply hasTag_after_access. }
    rewrite !applyAccessModifier_absent; auto.
Qed.

(** ** getTag *)

Section GetTag.

Lemma findIndex_shift (p : CommentTag → bool) ts : ∀ k,
  findIndex p k ts = (fun i => k + i) <$> findIndex p 0 ts.
Proof.
  induction ts as [|t ts IH]; intros k; simpl; [done|].
  destruct (p t); simpl.
  - by rewrite Nat.add_0_r.
  - rewrite (IH (S k)), (IH 1). destruct (findIndex p 0 ts); simpl; [|done].
    f_equal. lia.
Qed.

(** [getTag] returns the first tag that matches. *)
Lemma getTag_find c name param :
  getTag c name param = List.find (tagMatches name param) (tagsOf c).
Proof.
  unfold getTag, getTagIndex.
  induction (tagsOf c) as [|t ts IH]; simpl; [done|].
  destruct (tagMatches name param t); simpl; [done|].
  rewrite findIndex_shift. rewrite <- IH.
  by destruct (findIndex _ 0 ts).
Qed.

(** The first match splits the tags in three. *)
Lemma findIndex_split (p : CommentTag → bool) ts :
  (∃ t, t ∈ ts ∧ p t = true) →
  ∃ pre tag post,
    ts = pre ++ tag :: post ∧ p tag = true
    ∧ Forall (fun t => p t = false) pre
    ∧ findIndex p 0 ts = Some (length pre).
Proof.
  induction ts as [|t ts IH]; intros (t0 & Hin & Hp).
  - by apply elem_of_nil in Hin.
  - destruct (p t) eqn:Ept.
    + exists [], t, ts. simpl. rewrite Ept. by repeat split.
    + apply elem_of_cons in Hin as [->|Hin]; [congruence|].
      destruct IH as (pre & tag & post & -> & Hpt & Hpre & Hfi); [eauto|].
      exists (t :: pre), tag, post. simpl. rewrite Ept.
      repeat split; [done|by constructor|].
      rewrite findIndex_shift, Hfi. done.
Qed.

Lemma find_filter (p q : CommentTag → bool) ts :
  (∀ t, p t = true → q t = true) →
  List.find p (List.filter q ts) = List.find p ts.
Proof.
  intros Hpq. induction ts as [|t ts IH]; simpl; [done|].
  destruct (p t) eqn:Ep.
  - rewrite (Hpq t Ep). simpl. by rewrite Ep.
  - destruct (q t); simpl; [by rewrite Ep|done].
Qed.

Lemma find_elem (p : CommentTag → bool) ts :
  (∃ t, t ∈ ts ∧ p t = true) → ∃ tag, List.find p ts = Some tag.
Proof.
  intros (t & Hin & Hp). destruct (List.find p ts) eqn:E; [eauto|].
  apply list_elem_of_In in Hin.
  by rewrite (find_none _ _ E t Hin) in Hp.
Qed.

End GetTag.

(** ** TypeParameterCommentExtractor *)

(** The comment a type parameter receives is built from the first matching
    tag of its parent, when there is one. *)
Lemma onCreateTypeParameter_find (parent r : Reflection) :
  (onCreateTypeParameter parent r).2
  = match c ← comment parent;
          List.find (tagMatches "param" (Some (name r))) (tagsOf c) with
    | Some t => set_comment r (Some (new_Comment (text t)))
    | None => r
    end.
Proof.
  unfold onCreateTypeParameter. destruct (comment parent) as [c|]; simpl; [|done].
  rewrite <- getTag_find. unfold getTag.
  destruct (getTagIndex c "param" (Some (name r))) as [i|]; simpl; [|done].
  by destruct (tagsOf c !! i).
Qed.

(** C8.  When the comment of the parent has a [param] tag named like the
    type parameter, the first such tag splits the parent's tags into
    [pre ++ tag :: post]; after [onCreateTypeParameter] the type parameter's
    comment is a new comment whose short text is the tag's text (no long
    text, no tags), and the parent's tags are [pre ++ post], the comment
    being otherwise unchanged: that occurrence is gone.  A sibling type
    parameter created afterwards is served from the tags that are left,
    [pre ++ post], so it can not receive the same occurrence again. *)
Theorem onCreateTypeParameter_consumes_tag
    (parent r : Reflection) (c : Comment) :
  comment parent = Some c →
  (∃ t, t ∈ tagsOf c ∧ tagName t = "param" ∧ paramName t = name r) →
  ∃ pre tag post,
    tagsOf c = pre ++ tag :: post
    ∧ tagName tag = "param" ∧ paramName tag = name r
    ∧ Forall (fun t => tagMatches "param" (Some (name r)) t = false) pre
    ∧ (onCreateTypeParameter parent r).2
      = set_comment r (Some (mkComment (text tag) "" None None))
    ∧ (onCreateTypeParameter parent r).1
      = set_comment parent
          (Some (mkComment (shortText c) (c_text c) (returns c)
                           (Some (pre ++ post))))
    ∧ ∀ sibling,
        (onCreateTypeParameter (onCreateTypeParameter parent r).1 sibling).2
        = match List.find (tagMatches "param" (Some (name sibling)))
                          (pre ++ post) with
          | Some t => set_comment sibling (Some (new_Comment (text t)))
          | None => sibling
          end.
Proof.
  intros Hc (t & Hin & Hn & Hp).
  destruct (findIndex_split (tagMatches "param" (Some (name r))) (tagsOf c))
    as (pre & tag & post & Hts & Hm & Hpre & Hfi).
  { exists t. split; [done|]. unfold tagMatches.
    by rewrite Hn, Hp, !String.eqb_refl. }
  exists pre, tag, post.
  unfold tagMatches in Hm. apply andb_true_iff in Hm as [Hm1 Hm2].
  apply String.eqb_eq in Hm1, Hm2.
  assert (Hres : onCreateTypeParameter parent r
                 = (set_comment parent
                      (Some (mkComment (shortText c) (c_text c) (returns c)
                                       (Some (pre ++ post)))),
                    set_comment r (Some (mkComment (text tag) "" None None)))).
  { unfold onCreateTypeParameter, getTagIndex. rewrite Hc, Hfi, Hts.
    rewrite list_lookup_middle by done.
    by rewrite delete_middle. }
  rewrite Hres. simpl. repeat split; try done.
  intros sibling. by rewrite onCreateTypeParameter_find.
Qed.

Lemma onCreateTypeParameter_consumes_tag_witness :
  ∃ pre tag post,
    [mkTag "param" "T" "the element type"; mkTag "param" "U" "the key type"]
    = pre ++ tag :: post
    ∧ tagName tag = "param" ∧ paramName tag = "T"
    ∧ Forall (fun t => tagMatches "param" (Some "T") t = false) pre
    ∧ (onCreateTypeParameter genericParent typeParameterT).2
      = set_comment typeParameterT (Some (mkComment (text tag) "" None None))
    ∧ (onCreateTypeParameter genericParent typeParameterT).1
      = set_comment genericParent
          (Some (mkComment "A list." "" None (Some (pre ++ post))))
    ∧ ∀ sibling,
        (onCreateTypeParameter
           (onCreateTypeParameter genericParent typeParameterT).1 sibling).2
        = match List.find (tagMatches "param" (Some (name sibling)))
                          (pre ++ post) with
          | Some t => set_comment sibling (Some (new_Comment (text t)))
          | None => sibling
          end.
Proof.
  apply (onCreateTypeParameter_consumes_tag genericParent typeParameterT
           (mkComment "A list." "" None
              (Some [mkTag "param" "T" "the element type";
                     mkTag "param" "U" "the key type"]))).
  - reflexivity.
  - exists (mkTag "param" "T" "the element type").
    split; [left | split; reflexivity].
Defined.

(** ** SignatureReconciler *)

Section Resolve.

Lemma hasTag_getTag c name t :
  getTag c name None = Some t → hasTag c name = true.
Proof.
  rewrite getTag_find. unfold hasTag. intros H.
  apply find_some in H as [Hin Hm].
  apply existsb_exists. exists t. split; [done|].
  unfold tagMatches in Hm. by rewrite andb_true_r in Hm.
Qed.

(** [moveReturns] filters the [returns] tags out in every case, and sets the
    [returns] field from the first of them when there is one. *)
Lemma moveReturns_spec c :
  moveReturns (Some c)
  = Some (mkComment (shortText c) (c_text c)
            (if hasTag c "returns" then text <$> getTag c "returns" None
             else returns c)
            (List.filter (otherName "returns") <$> tags c)).
Proof.
  unfold moveReturns. destruct (hasTag c "returns") eqn:E.
  - f_equal. unfold removeTags, set_returns, set_tags. simpl.
    destruct (tags c) as [ts|] eqn:Et; simpl; [|done].
    by rewrite removeTags_loop_filter.
  - f_equal. unfold hasTag, tagsOf in E.
    destruct c as [s t rt [ts|]]; simpl in *; [|done].
    by rewrite filter_otherName_id.
Qed.

Lemma hasTag_filtered c name ts :
  tags c = Some (List.filter (otherName name) ts) → hasTag c name = false.
Proof.
  intros H. apply (hasTag_filter _ _ (otherName name) ts).
  - unfold tagsOf. by rewrite H.
  - intros t Ht. unfold otherName. by rewrite Ht.
Qed.

(** Removing the [param] tags does not bring a tag of another name back. *)
Lemma hasTag_removeTags_other c name other :
  hasTag c name = false → hasTag (removeTags c other) name = false.
Proof.
  unfold hasTag. rewrite tagsOf_removeTags.
  induction (tagsOf c) as [|t ts IH]; simpl; [done|].
  intros H. apply orb_false_iff in H as [H1 H2].
  destruct (otherName other t); simpl; [|by apply IH].
  rewrite H1. by apply IH.
Qed.

(** The [param] tag found for a name is the same before and after the
    [returns] tags were moved out of the comment. *)
Lemma getTag_param_moveReturns c c' n :
  moveReturns (Some c) = Some c' →
  getTag c' "param" (Some n) = getTag c "param" (Some n).
Proof.
  rewrite moveReturns_spec. intros [= <-].
  rewrite !getTag_find. unfold tagsOf. simpl.
  destruct (tags c) as [ts|]; simpl; [|done].
  apply find_filter. intros t Ht. unfold tagMatches in Ht.
  apply andb_true_iff in Ht as [Ht _]. apply String.eqb_eq in Ht.
  unfold otherName. by rewrite Ht.
Qed.

Lemma getTag_param_inherit comment cc n :
  (c' ← inheritComment comment (Some cc); getTag c' "param" (Some n))
  = getTag cc "param" (Some n).
Proof. unfold inheritComment. by destruct comment. Qed.

Lemma signatures_onResolve d :
  signatures (onResolve d)
  = map (resolveSignature (moveReturns (comment (d_base d)))) (signatures d).
Proof. unfold onResolve. by destruct (signatures d) eqn:E; simpl; rewrite ?E. Qed.

Lemma returns_removeTags c name : returns (removeTags c name) = returns c.
Proof. unfold removeTags. by destruct (tags c). Qed.

(** Once the [returns] tags were moved out of a comment, the later removal
    of its [param] tags leaves it without a [returns] tag. *)
Lemma hasTag_moved x c :
  tags x = List.filter (otherName "returns") <$> tags c →
  hasTag (removeTags x "param") "returns" = false.
Proof.
  intros Hx. apply hasTag_removeTags_other.
  destruct (tags c) as [ts|]; simpl in Hx.
  - by eapply hasTag_filtered.
  - unfold hasTag, tagsOf. by rewrite Hx.
Qed.

End Resolve.

(** C3.  Take any parameter of any signature of a declaration.  If the
    signature's own comment has a [param] tag named like the parameter,
    then after [onResolve] the parameter's comment is a new comment whose
    short text is the text of the first such tag of the signature's comment,
    and nothing else (no long text, no tags): whatever the declaration's
    comment says about that name is not used. *)
Theorem onResolve_parameter_from_signature
    (d : DeclarationReflection) (k j : nat) (s : SignatureReflection)
    (ps : list Reflection) (p : Reflection) (cc : Comment) :
  signatures d !! k = Some s →
  parameters s = Some ps →
  ps !! j = Some p →
  comment (s_base s) = Some cc →
  (∃ t, t ∈ tagsOf cc ∧ tagName t = "param" ∧ paramName t = name p) →
  ∃ tag s' ps',
    getTag cc "param" (Some (name p)) = Some tag
    ∧ tag ∈ tagsOf cc
    ∧ signatures (onResolve d) !! k = Some s'
    ∧ parameters s' = Some ps'
    ∧ ps' !! j
      = Some (set_comment p (Some (mkComment (text tag) "" None None))).
Proof.
  intros Hk Hps Hj Hcc (t & Hin & Hn & Hp).
  destruct (find_elem (tagMatches "param" (Some (name p))) (tagsOf cc))
    as [tag Htag].
  { exists t. split; [done|]. unfold tagMatches.
    by rewrite Hn, Hp, !String.eqb_refl. }
  exists tag.
  eexists _, _. rewrite getTag_find. split; [exact Htag|].
  split. { apply find_some in Htag as [Hi _]. by apply list_elem_of_In. }
  rewrite signatures_onResolve, list_lookup_fmap, Hk. simpl.
  split; [reflexivity|]. unfold resolveSignature at 1. simpl.
  rewrite Hps. simpl. split; [reflexivity|].
  rewrite list_lookup_fmap, Hj. simpl. f_equal.
  unfold resolveParameter. rewrite Hcc.
  destruct (moveReturns (Some cc)) as [c1|] eqn:E1.
  2:{ by rewrite moveReturns_spec in E1. }
  rewrite getTag_param_inherit, (getTag_param_moveReturns _ _ _ E1).
  rewrite getTag_find, Htag.
  by destruct (moveReturns (comment (d_base d))).
Qed.

Lemma onResolve_parameter_from_signature_witness :
  ∃ tag s' ps',
    getTag (mkComment "" "" None (Some [mkTag "param" "x" "sig-level"]))
           "param" (Some "x") = Some tag
    ∧ tag ∈ [mkTag "param" "x" "sig-level"]
    ∧ signatures (onResolve declLevel) !! 0 = Some s'
    ∧ parameters s' = Some ps'
    ∧ ps' !! 0
      = Some (set_comment
                (mkReflection 12 "x" KParameter (mkFlags false false false) None)
                (Some (mkComment (text tag) "" None None))).
Proof.
  apply (onResolve_parameter_from_signature declLevel 0 0 sigLevel
           [mkReflection 12 "x" KParameter (mkFlags false false false) None]
           (mkReflection 12 "x" KParameter (mkFlags false false false) None)
           (mkComment "" "" None (Some [mkTag "param" "x" "sig-level"])));
    try reflexivity.
  exists (mkTag "param" "x" "sig-level"). split; [left | split; reflexivity].
Defined.

(** C2.  A declaration whose comment has a [returns] tag (the first one
    with text [R]) owns two signatures: the first has a comment with a
    [returns] tag of its own (the first one with a non-empty text [S]), the
    second has no return documentation.  After [onResolve] the [returns]
    field of the first signature's comment is [S], that of the second is
    [R], that of the declaration is [R], and none of the three comments has
    a [returns] tag left. *)
Theorem onResolve_returns
    (base : Reflection) (c c1 : Comment) (tR tS : CommentTag)
    (s1 s2 : SignatureReflection) :
  comment base = Some c →
  getTag c "returns" None = Some tR →
  comment (s_base s1) = Some c1 →
  getTag c1 "returns" None = Some tS →
  text tS ≠ "" →
  noReturns (comment (s_base s2)) = true →
  ∃ c' c1' c2' s1' s2',
    signatures (onResolve (mkDeclaration base [s1; s2])) = [s1'; s2']
    ∧ comment (d_base (onResolve (mkDeclaration base [s1; s2]))) = Some c'
    ∧ comment (s_base s1') = Some c1'
    ∧ comment (s_base s2') = Some c2'
    ∧ returns c1' = Some (text tS)
    ∧ returns c2' = Some (text tR)
    ∧ returns c' = Some (text tR)
    ∧ hasTag c' "returns" = false
    ∧ hasTag c1' "returns" = false
    ∧ hasTag c2' "returns" = false.
Proof.
  intros Hc HtR Hc1 HtS HS Hs2.
  pose proof (hasTag_getTag _ _ _ HtR) as HhR.
  pose proof (hasTag_getTag _ _ _ HtS) as HhS.
  rewrite signatures_onResolve. unfold onResolve. simpl. rewrite Hc.
  rewrite moveReturns_spec, HhR, HtR. simpl.
  unfold resolveSignature. rewrite Hc1, moveReturns_spec, HhS, HtS. simpl.
  assert (Htr : js_or (Some (text tS)) (Some (text tR)) = Some (text tS)).
  { unfold js_or. simpl. by destruct (text tS). }
  rewrite Htr.
  destruct (comment (s_base s2)) as [c2|] eqn:E2; simpl in Hs2.
  - apply andb_true_iff in Hs2 as [Hh2 Hr2].
    apply negb_true_iff in Hh2, Hr2.
    rewrite moveReturns_spec, Hh2. simpl.
    unfold js_or. simpl. rewrite Hr2.
    eexists _, _, _, _, _. do 4 (split; [reflexivity|]).
    rewrite !returns_removeTags. simpl.
    repeat split; by eapply hasTag_moved.
  - eexists _, _, _, _, _. do 4 (split; [reflexivity|]).
    rewrite !returns_removeTags. simpl.
    repeat split; by eapply hasTag_moved.
Qed.

Lemma onResolve_returns_witness :
  ∃ c' c1' c2' s1' s2',
    signatures (onResolve (mkDeclaration declR [sigS; sigPlain])) = [s1'; s2']
    ∧ comment (d_base (onResolve (mkDeclaration declR [sigS; sigPlain])))
      = Some c'
    ∧ comment (s_base s1') = Some c1'
    ∧ comment (s_base s2') = Some c2'
    ∧ returns c1' = Some "S"
    ∧ returns c2' = Some "R"
    ∧ returns c' = Some "R"
    ∧ hasTag c' "returns" = false
    ∧ hasTag c1' "returns" = false
    ∧ hasTag c2' "returns" = false.
Proof.
  apply (onResolve_returns declR
           (mkComment "Does it." "" None (Some [mkTag "returns" "" "R"]))
           (mkComment "First." "" None (Some [mkTag "returns" "" "S"]))
           (mkTag "returns" "" "R") (mkTag "returns" "" "S") sigS sigPlain);
    try reflexivity.
  discriminate.
Defined.

(** ** onDeclaration *)

(** [applyAccessModifiers] changes nothing of the reflection but its
    flags. *)
Lemma applyAccessModifiers_frame (x : Reflection) (c : Comment) :
  id (applyAccessModifiers x c).1 = id x
  ∧ name (applyAccessModifiers x c).1 = name x
  ∧ kind (applyAccessModifiers x c).1 = kind x
  ∧ comment (applyAccessModifiers x c).1 = comment x.
Proof.
  unfold applyAccessModifiers. rewrite !applyAccessModifier_spec. simpl.
  repeat destruct (hasTag _ _); simpl; done.
Qed.

(** What [onDeclaration] leaves in the [comment] field of a reflection that
    had no comment object. *)
Lemma onDeclaration_comment_fresh
    (comments : gmap Z IModuleComment) (a : ascii) (raw : string)
    (other : Reflection) :
  comment (onDeclaration comments (Some (String a raw))
             (set_comment other None)).2
  = if kindOf other FunctionOrMethod || kindOf other [KModule] then None
    else Some (applyAccessModifiers (set_comment other None)
                 (parseComment (String a raw) None)).2.
Proof.
  unfold onDeclaration.
  change (kindOf (set_comment other None)) with (kindOf other).
  change (comment (set_comment other None)) with (@None Comment).
  pose proof (applyAccessModifiers_frame (set_comment other None)
                (parseComment (String a raw) None)) as (_ & _ & _ & H).
  destruct (applyAccessModifiers (set_comment other None)
              (parseComment (String a raw) None)) as [r2 c2].
  destruct (kindOf other FunctionOrMethod); [exact H|].
  by destruct (kindOf other [KModule]).
Qed.

(** C10.  A function or method with a raw comment and no comment object:
    [onDeclaration] leaves its [comment] absent and the plugin's table as it
    was; id, name and kind are unchanged and the flags are those set by the
    access modifier tags of the parsed comment.  For any reflection without
    a comment object, the parsed comment is attached exactly when the
    reflection is neither a function or method nor a module. *)
Theorem onDeclaration_function_not_attached
    (comments : gmap Z IModuleComment) (raw : string) (r : Reflection) :
  raw ≠ "" →
  kindOf r FunctionOrMethod = true →
  comment r = None →
  (onDeclaration comments (Some raw) r).1 = comments
  ∧ comment (onDeclaration comments (Some raw) r).2 = None
  ∧ id (onDeclaration comments (Some raw) r).2 = id r
  ∧ name (onDeclaration comments (Some raw) r).2 = name r
  ∧ kind (onDeclaration comments (Some raw) r).2 = kind r
  ∧ flags (onDeclaration comments (Some raw) r).2
    = mkFlags
        (isPrivate (flags r) || hasTag (parseComment raw None) "private")
        (isProtected (flags r) || hasTag (parseComment raw None) "protected")
        (isPublic (flags r) || hasTag (parseComment raw None) "public")
  ∧ ∀ other,
      comment (onDeclaration comments (Some raw) (set_comment other None)).2
      = if kindOf other FunctionOrMethod || kindOf other [KModule] then None
        else Some (applyAccessModifiers (set_comment other None)
                     (parseComment raw None)).2.
Proof.
  intros Hraw Hk Hc.
  destruct raw as [|a raw]; [done|].
  split; [|split; [|split; [|split; [|split; [|split]]]]];
    try apply onDeclaration_comment_fresh;
    unfold onDeclaration; rewrite Hk, Hc;
    pose proof (applyAccessModifiers_frame r
                  (parseComment (String a raw) None)) as (H1 & H2 & H3 & H4);
    pose proof (flags_applyAccessModifiers r
                  (parseComment (String a raw) None)) as Hfl;
    destruct (applyAccessModifiers r (parseComment (String a raw) None))
      as [r' c']; simpl in *; congruence.
Qed.

Lemma onDeclaration_function_not_attached_witness :
  (onDeclaration onBegin (Some privateComment) methodM).1 = onBegin
  ∧ comment (onDeclaration onBegin (Some privateComment) methodM).2
    = None
  ∧ id (onDeclaration onBegin (Some privateComment) methodM).2 = 30%Z
  ∧ name (onDeclaration onBegin (Some privateComment) methodM).2
    = "m"
  ∧ kind (onDeclaration onBegin (Some privateComment) methodM).2
    = KMethod
  ∧ flags (onDeclaration onBegin (Some privateComment) methodM).2
    = mkFlags
        (false || hasTag (parseComment privateComment None) "private")
        (false || hasTag (parseComment privateComment None) "protected")
        (false || hasTag (parseComment privateComment None) "public")
  ∧ ∀ other,
      comment (onDeclaration onBegin (Some privateComment)
                 (set_comment other None)).2
      = if kindOf other FunctionOrMethod || kindOf other [KModule] then None
        else Some (applyAccessModifiers (set_comment other None)
                     (parseComment privateComment None)).2.
Proof.
  apply (onDeclaration_function_not_attached onBegin
           privateComment methodM);
    [discriminate | reflexivity | reflexivity].
Defined.

(** ** CommentTokenizer *)

Example stripOpen_ex :
  stripOpen "  /*** a" = " a" ∧ stripOpen " /x" = " /x".
Proof. split; reflexivity. Qed.

Example stripClose_ex :
  stripClose "a **/  " = "a " ∧ stripClose "**/ x */" = "**/ x "
  ∧ stripClose "a */ b" = "a */ b".
Proof. repeat split; reflexivity. Qed.

Example normalizeLine_ex :
  normalizeLine "   * x  " = "x" ∧ normalizeLine "   *  x" = " x"
  ∧ normalizeLine " ** x" = "* x".
Proof. repeat split; reflexivity. Qed.

Example consumeTypeData_ex :
  consumeTypeData "{a}[b] x" = "x" ∧ consumeTypeData "{a x" = "{a x".
Proof. split; reflexivity. Qed.

Example parseTag_ex :
  parseTag "Param" "@Param {string} x [opt] the value"
  = mkTag "param" "x" "the value"
  ∧ parseTag "return" "@return {number} the sum" = mkTag "returns" "" "the sum".
Proof. split; reflexivity. Qed.

(** C5, as the code has it.  The example comment parses into the short text
    ["A."], no long text, one [param] tag for [x] with text ["the value"],
    and one [returns] tag whose text is ["done"] followed by a line feed:
    the last line of the comment, empty once its gutter is removed, is a
    continuation line of the open [returns] tag. *)
Theorem parseComment_example :
  parseComment exampleComment None
  = mkComment "A." "" None
      (Some [mkTag "param" "x" "the value";
             mkTag "returns" "" (String.append "done" LF)]).
Proof. vm_compute. reflexivity. Qed.

(** C5, as the claim states it, fails: the text of the [returns] tag is not
    ["done"]. *)
Lemma parseComment_example_returns_not_done :
  ¬ (∃ p t,
       tags (parseComment exampleComment None) = Some [p; t]
       ∧ shortText (parseComment exampleComment None) = "A."
       ∧ p = mkTag "param" "x" "the value"
       ∧ tagName t = "returns" ∧ text t = "done").
Proof.
  intros (p & t & Ht & _ & _ & _ & Hd).
  vm_compute in Ht. injection Ht as _ <-.
  vm_compute in Hd. discriminate Hd.
Qed.

Section Paragraphs.

Lemma fold_parseLine lines : ∀ st,
  fold_left parseLine lines st
  = fold_left parseStep (map normalizeLine lines) st.
Proof. induction lines as [|l lines IH]; intros st; simpl; [done|apply IH]. Qed.

Lemma string_append_assoc (a b c : string) :
  String.append (String.append a b) c = String.append a (String.append b c).
Proof.
  induction a as [|x a' IH]; [reflexivity|].
  change (String x (String.append (String.append a' b) c)
          = String x (String.append a' (String.append b c))).
  by rewrite IH.
Qed.

Lemma appendLine_empty line : appendLine "" line = line.
Proof. reflexivity. Qed.

Lemma appendLine_nonempty x line :
  x ≠ "" → appendLine x line = String.append x (String "010" line).
Proof.
  intros Hx. unfold appendLine. apply String.eqb_neq in Hx. by rewrite Hx.
Qed.

Lemma append_nonempty a b : a ≠ "" → String.append a b ≠ "".
Proof. by destruct a. Qed.

Lemma joinLines_cons x ls :
  Str.joinLines (x :: ls)
  = match ls with
    | [] => x
    | _ => String.append x (String "010" (Str.joinLines ls))
    end.
Proof. by destruct ls. Qed.

Lemma joinLines_merge x l ls :
  Str.joinLines (String.append x (String "010" l) :: ls)
  = Str.joinLines (x :: l :: ls).
Proof.
  rewrite (joinLines_cons x), (joinLines_cons l). rewrite joinLines_cons.
  destruct ls; [done|]. by rewrite string_append_assoc.
Qed.

(** A field that already holds [x], extended by the lines [ls]. *)
Lemma fold_appendLine ls : ∀ x,
  x ≠ "" → fold_left appendLine ls x = Str.joinLines (x :: ls).
Proof.
  induction ls as [|l ls IH]; intros x Hx; simpl fold_left; [done|].
  rewrite appendLine_nonempty by done.
  rewrite IH by (by apply append_nonempty).
  apply joinLines_merge.
Qed.

(** An empty field extended by the lines [ls]: blank lines leave it empty
    until the first line with content. *)
Lemma fold_appendLine_empty ls :
  fold_left appendLine ls "" = Str.joinLines (skipBlank ls).
Proof.
  induction ls as [|l ls IH]; simpl fold_left; [done|].
  rewrite appendLine_empty. simpl. unfold isBlank.
  destruct (String.eqb l "") eqn:E.
  - apply String.eqb_eq in E. subst l. apply IH.
  - apply String.eqb_neq in E. by apply fold_appendLine.
Qed.

(** Phase 2: every further line goes to the long text. *)
Lemma parse_phase2 ls : ∀ c,
  Forall noTag ls →
  ps_comment (fold_left parseStep ls (mkParseState c None 2))
  = mkComment (shortText c) (fold_left appendLine ls (c_text c))
              (returns c) (tags c).
Proof.
  induction ls as [|l ls IH]; intros c Hls; simpl fold_left.
  - by destruct c.
  - apply Forall_cons in Hls as [Hl Hls].
    unfold parseStep at 2. rewrite Hl. simpl.
    rewrite !andb_false_r. by rewrite IH.
Qed.

(** Phase 1: lines extend the short text up to the first blank line. *)
Lemma parse_phase1 ls : ∀ c,
  Forall noTag ls → shortText c ≠ "" →
  ps_comment (fold_left parseStep ls (mkParseState c None 1))
  = mkComment (Str.joinLines (shortText c :: firstParagraph ls))
              (fold_left appendLine (afterParagraph ls) (c_text c))
              (returns c) (tags c).
Proof.
  induction ls as [|l ls IH]; intros c Hls Hc; simpl fold_left.
  - by destruct c.
  - apply Forall_cons in Hls as [Hl Hls].
    unfold parseStep at 2. rewrite Hl.
    cbn [currentTag ps_shortText ps_comment Nat.eqb firstParagraph
         afterParagraph].
    unfold isBlank. rewrite andb_false_r, andb_true_r.
    destruct (String.eqb l "") eqn:E.
    + by rewrite parse_phase2.
    + rewrite IH; cbn [shortText c_text returns tags]; [|done|].
      * rewrite appendLine_nonempty by done. by rewrite joinLines_merge.
      * rewrite appendLine_nonempty by done. by apply append_nonempty.
Qed.

(** Phase 0: blank lines are ignored until the first line with content. *)
Lemma parse_phase0 ls : ∀ c,
  Forall noTag ls → shortText c = "" →
  ps_comment (fold_left parseStep ls (mkParseState c None 0))
  = mkComment (Str.joinLines (firstParagraph (skipBlank ls)))
              (fold_left appendLine (afterParagraph (skipBlank ls)) (c_text c))
              (returns c) (tags c).
Proof.
  induction ls as [|l ls IH]; intros c Hls Hc; simpl fold_left.
  - destruct c; simpl in *. by subst.
  - apply Forall_cons in Hls as [Hl Hls].
    unfold parseStep at 2. rewrite Hl.
    cbn [currentTag ps_shortText ps_comment Nat.eqb skipBlank].
    unfold isBlank. rewrite !andb_true_r, !andb_false_r.
    destruct (String.eqb l "") eqn:E.
    + by apply IH.
    + cbn [firstParagraph afterParagraph]. unfold isBlank. rewrite E.
      rewrite parse_phase1; cbn [shortText c_text returns tags]; [|done|].
      * by rewrite Hc, appendLine_empty.
      * rewrite Hc, appendLine_empty. by apply String.eqb_neq.
Qed.

(** Without a blank line after the first content, the first paragraph is
    the whole body and nothing is left for the long text. *)
Lemma no_break_whole_body ls :
  Forall (fun l => isBlank l = false) (skipBlank ls) →
  spec_shortText ls = Str.joinLines (skipBlank ls) ∧ longText ls = "".
Proof.
  unfold spec_shortText, longText. generalize (skipBlank ls) as body.
  intros body H.
  induction H as [|l body Hl Hbody [IH1 IH2]]; [done|].
  cbn [firstParagraph afterParagraph]. rewrite Hl. split; [|done].
  rewrite !joinLines_cons. rewrite IH1.
  destruct Hbody as [|l' body Hl' _]; [done|].
  cbn [firstParagraph]. by rewrite Hl'.
Qed.

End Paragraphs.

(** C6, as the code has it.  For a text none of whose normalized lines
    starts a tag, [parseComment] returns a comment without tags whose short
    text is made of the lines before the first blank line that follows
    content (leading blank lines dropped), and whose long text is made of
    the lines after that blank line without the blank lines that directly
    follow it; the lines of each part are joined by line feeds.  Without a
    blank line after content the long text is empty and the short text is
    the whole body. *)
Theorem parseComment_without_tags (text : string) :
  Forall (fun line => tagMatch line = None) (bodyLines text) →
  parseComment text None
  = mkComment (spec_shortText (bodyLines text)) (longText (bodyLines text))
              None None.
Proof.
  intros H. unfold parseComment, parseLines. rewrite fold_parseLine.
  fold (bodyLines text). simpl default.
  rewrite parse_phase0 by done. simpl.
  by rewrite fold_appendLine_empty.
Qed.

Lemma parseComment_without_tags_witness :
  parseComment twoBlankLines None
  = mkComment (spec_shortText (bodyLines twoBlankLines))
              (longText (bodyLines twoBlankLines)) None None.
Proof.
  apply (parseComment_without_tags twoBlankLines).
  vm_compute. repeat constructor.
Defined.

(** C6, as the claim states it, fails: when two blank lines follow the first
    paragraph, the long text is not everything after the first of them. *)
Lemma parseComment_long_text_not_everything :
  ¬ (∀ text,
       Forall (fun line => tagMatch line = None) (bodyLines text) →
       parseComment text None
       = mkComment (spec_shortText (bodyLines text))
                   (spec_text (bodyLines text)) None None).
Proof.
  intros H. specialize (H twoBlankLines).
  assert (Hno : Forall (fun line => tagMatch line = None)
                       (bodyLines twoBlankLines))
    by (vm_compute; repeat constructor).
  specialize (H Hno). vm_compute in H. discriminate H.
Qed.

Section Tags.

(** A line never changes the name or the parameter name of a tag that is
    already recorded, nor its position. *)
Lemma parseStep_keeps_tag st line (i : nat) t :
  tagsOf (ps_comment st) !! i = Some t →
  ∃ t', tagsOf (ps_comment (parseStep st line)) !! i = Some t'
        ∧ tagName t' = tagName t ∧ paramName t' = paramName t.
Proof.
  intros Hi. unfold parseStep.
  destruct (tagMatch line) as [w|].
  - exists t. cbn [ps_comment]. unfold tagsOf at 1. simpl.
    split; [|done]. by apply lookup_app_l_Some.
  - destruct (currentTag st) as [j|].
    + cbn [ps_comment]. unfold tagsOf in *. simpl.
      destruct (tags (ps_comment st)) as [ts|]; simpl in *; [|done].
      destruct (decide (i = j)) as [->|Hne].
      * exists (appendTagText line t).
        by rewrite list_lookup_alter_eq, Hi.
      * exists t. by rewrite list_lookup_alter_ne.
    + repeat match goal with |- context [if ?b then _ else _] =>
               destruct b end; eauto.
Qed.

Lemma parseLines_keep_tag lines : ∀ st (i : nat) t,
  tagsOf (ps_comment st) !! i = Some t →
  ∃ t', tagsOf (ps_comment (fold_left parseLine lines st)) !! i = Some t'
        ∧ tagName t' = tagName t ∧ paramName t' = paramName t.
Proof.
  induction lines as [|l lines IH]; intros st i t Hi; simpl; [eauto|].
  destruct (parseStep_keeps_tag st (normalizeLine l) i t Hi)
    as (t1 & H1 & Hn1 & Hp1).
  destruct (IH _ _ _ H1) as (t2 & H2 & Hn2 & Hp2).
  exists t2. split; [done|]. split; congruence.
Qed.

End Tags.

(** C9.  A line of the comment that is just [@param] once normalized (no
    token follows the tag) is not rejected: the callback records a new tag
    named [param] whose parameter name and text are empty and makes it the
    current tag, and the comment [parseComment] returns has that tag, at
    the position it was recorded at, still named [param] and still with an
    empty parameter name. *)
Theorem parseComment_bare_param
    (text : string) (comment : option Comment) (pre post : list string)
    (line : string) :
  commentLines text = pre ++ line :: post →
  normalizeLine line = "@param" →
  parseLine (parseLines pre comment) line
  = mkParseState
      (set_tags (ps_comment (parseLines pre comment))
         (Some (tagsOf (ps_comment (parseLines pre comment))
                ++ [mkTag "param" "" ""])))
      (Some (length (tagsOf (ps_comment (parseLines pre comment)))))
      (ps_shortText (parseLines pre comment))
  ∧ ∃ t,
      tagsOf (parseComment text comment)
        !! length (tagsOf (ps_comment (parseLines pre comment))) = Some t
      ∧ tagName t = "param" ∧ paramName t = "".
Proof.
  intros Hlines Hline.
  assert (Hstep : ∀ st,
    parseLine st line
    = mkParseState
        (set_tags (ps_comment st)
           (Some (tagsOf (ps_comment st) ++ [mkTag "param" "" ""])))
        (Some (length (tagsOf (ps_comment st)))) (ps_shortText st)).
  { intros st. unfold parseLine. rewrite Hline. reflexivity. }
  split; [apply Hstep|].
  unfold parseComment, parseLines. rewrite Hlines, fold_left_app. simpl.
  fold (parseLines pre comment).
  destruct (parseLines_keep_tag post (parseLine (parseLines pre comment) line)
              (length (tagsOf (ps_comment (parseLines pre comment))))
              (mkTag "param" "" "")) as (t & Ht & Hn & Hp).
  { rewrite Hstep. cbn [ps_comment].
    change (tagsOf (set_tags ?c (Some ?l))) with l.
    by apply list_lookup_middle. }
  exists t. done.
Qed.

Lemma parseComment_bare_param_witness :
  parseLine (parseLines [" Adds."] None) " * @param"
  = mkParseState
      (set_tags (ps_comment (parseLines [" Adds."] None))
         (Some (tagsOf (ps_comment (parseLines [" Adds."] None))
                ++ [mkTag "param" "" ""])))
      (Some (length (tagsOf (ps_comment (parseLines [" Adds."] None)))))
      (ps_shortText (parseLines [" Adds."] None))
  ∧ ∃ t,
      tagsOf (parseComment bareParam None)
        !! length (tagsOf (ps_comment (parseLines [" Adds."] None))) = Some t
      ∧ tagName t = "param" ∧ paramName t = "".
Proof.
  apply (parseComment_bare_param bareParam None [" Adds."] [" "] " * @param");
    reflexivity.
Defined.

(** * Further properties of the plugin *)

(** ** removeTags *)

Section RemoveTagsMore.

Lemma filter_filter_comm (p q : CommentTag → bool) ts :
  List.filter p (List.filter q ts) = List.filter q (List.filter p ts).
Proof.
  induction ts as [|t ts IH]; simpl; [done|].
  destruct (p t) eqn:Ep, (q t) eqn:Eq; simpl; rewrite ?Ep, ?Eq, ?IH; done.
Qed.

Lemma filter_filter_same (p : CommentTag → bool) ts :
  List.filter p (List.filter p ts) = List.filter p ts.
Proof.
  induction ts as [|t ts IH]; simpl; [done|].
  destruct (p t) eqn:Ep; simpl; rewrite ?Ep, ?IH; done.
Qed.

Lemma removeTags_as_filter c name :
  removeTags c name
  = mkComment (shortText c) (c_text c) (returns c)
              (List.filter (otherName name) <$> tags c).
Proof.
  unfold removeTags, set_tags. destruct c as [s t r [ts|]]; simpl; [|done].
  by rewrite removeTags_loop_filter.
Qed.

End RemoveTagsMore.

(** X1.  The splice loop of [removeTags] removes every tag of the given
    name, wherever it stands, and keeps all other tags in their order; the
    short text, the long text and the [returns] field are not touched, and a
    comment whose [tags] are [undefined] is left as it is. *)
Theorem removeTags_removes_exactly_the_name (c : Comment) (name : string) :
  shortText (removeTags c name) = shortText c
  ∧ c_text (removeTags c name) = c_text c
  ∧ returns (removeTags c name) = returns c
  ∧ tags (removeTags c name)
    = List.filter (fun t => negb (String.eqb (tagName t) name)) <$> tags c
  ∧ Forall (fun t => tagName t ≠ name) (tagsOf (removeTags c name))
  ∧ (∀ t, t ∈ tagsOf c → tagName t ≠ name → t ∈ tagsOf (removeTags c name)).
Proof.
  rewrite removeTags_as_filter. simpl. repeat split; try done.
  - unfold tagsOf. simpl. destruct (tags c) as [ts|]; simpl; [|constructor].
    apply Forall_forall. intros t Ht.
    apply list_elem_of_In, filter_In in Ht as [_ Ht].
    unfold otherName in Ht. apply negb_true_iff in Ht.
    by apply String.eqb_neq.
  - intros t Ht Hn. unfold tagsOf in *. simpl.
    destruct (tags c) as [ts|]; simpl in *; [|done].
    apply list_elem_of_In, filter_In. split; [by apply list_elem_of_In|].
    unfold otherName. apply negb_true_iff. by apply String.eqb_neq.
Qed.

(** X2.  Removing the tags of a name twice is the same as removing them
    once, and the tags of two names can be removed in either order. *)
Theorem removeTags_idempotent_and_commutes (c : Comment) (a b : string) :
  removeTags (removeTags c a) a = removeTags c a
  ∧ removeTags (removeTags c a) b = removeTags (removeTags c b) a.
Proof.
  rewrite !removeTags_as_filter. simpl. split; f_equal.
  - destruct (tags c) as [ts|]; simpl; [|done].
    by rewrite filter_filter_same.
  - destruct (tags c) as [ts|]; simpl; [|done].
    by rewrite filter_filter_comm.
Qed.

(** ** parseComment: tags *)

Section ParseTags.

Lemma tagsOf_alter c f (i : nat) :
  tagsOf (set_tags c (alter f i <$> tags c)) = alter f i (tagsOf c).
Proof. unfold tagsOf, set_tags. simpl. by destruct (tags c). Qed.

Lemma tagsOf_push c ts : tagsOf (set_tags c (Some ts)) = ts.
Proof. reflexivity. Qed.

(** The tags and the current tag after one line, from those before it. *)
Lemma parseStep_tags st line :
  tagsOf (ps_comment (parseStep st line))
  = match tagMatch line with
    | Some w => tagsOf (ps_comment st) ++ [parseTag w line]
    | None =>
        match currentTag st with
        | Some i => alter (appendTagText line) i (tagsOf (ps_comment st))
        | None => tagsOf (ps_comment st)
        end
    end
  ∧ currentTag (parseStep st line)
    = match tagMatch line with
      | Some w => Some (length (tagsOf (ps_comment st)))
      | None => currentTag st
      end.
Proof.
  unfold parseStep. destruct (tagMatch line) as [w|]; [done|].
  destruct (currentTag st) as [i|] eqn:Ei.
  - cbn [ps_comment currentTag]. by rewrite tagsOf_alter.
  - repeat match goal with |- context [if ?b then _ else _] =>
             destruct b end; by rewrite ?Ei.
Qed.

(** The imperative tag list against [tagsOfLines]: [done] are the closed
    tags, [cur] the open one, which is the last element of the array. *)
Lemma parseSteps_tagsOfLines lines : ∀ st (closed : list CommentTag) cur,
  tagsOf (ps_comment st) = closed ++ option_list cur →
  currentTag st = (fun _ => length closed) <$> cur →
  tagsOf (ps_comment (fold_left parseStep lines st))
  = closed ++ tagsOfLines cur lines.
Proof.
  induction lines as [|l lines IH]; intros st closed cur Hts Hcur; simpl.
  - done.
  - destruct (parseStep_tags st l) as [Ht Hc].
    destruct (tagMatch l) as [w|] eqn:El.
    + rewrite (IH _ (closed ++ option_list cur) (Some (parseTag w l))).
      * by rewrite <- app_assoc.
      * by rewrite Ht, Hts.
      * by rewrite Hc, Hts.
    + apply IH.
      * rewrite Ht, Hcur, Hts. destruct cur as [t|]; simpl; [|done].
        rewrite <- (Nat.add_0_r (length closed)) at 1.
        by rewrite alter_app_r.
      * rewrite Hc, Hcur. by destruct cur.
Qed.

(** Two runs over the same lines, one into a comment that already has the
    tags [base]: the tag lists differ by the prefix [base]. *)
Lemma parseSteps_prefix lines (base : list CommentTag) : ∀ st1 st2,
  tagsOf (ps_comment st1) = base ++ tagsOf (ps_comment st2) →
  currentTag st1 = (fun i => length base + i) <$> currentTag st2 →
  tagsOf (ps_comment (fold_left parseStep lines st1))
  = base ++ tagsOf (ps_comment (fold_left parseStep lines st2)).
Proof.
  induction lines as [|l lines IH]; intros st1 st2 Hts Hcur; simpl; [done|].
  destruct (parseStep_tags st1 l) as [Ht1 Hc1].
  destruct (parseStep_tags st2 l) as [Ht2 Hc2].
  apply IH.
  - rewrite Ht1, Ht2. destruct (tagMatch l) as [w|].
    + by rewrite Hts, <- app_assoc.
    + rewrite Hcur. destruct (currentTag st2) as [i|]; simpl; [|done].
      by rewrite Hts, alter_app_r.
  - rewrite Hc1, Hc2. destruct (tagMatch l) as [w|]; [|done].
    simpl. by rewrite Hts, length_app.
Qed.

Lemma parseTag_name w line :
  tagName (parseTag w line)
  = if String.eqb (Str.toLowerCase w) "return" then "returns"
    else Str.toLowerCase w.
Proof.
  unfold parseTag.
  destruct (String.eqb (Str.toLowerCase w) "return"); simpl.
  - done.
  - destruct (String.eqb (Str.toLowerCase w) "param") eqn:Ep.
    + destruct (firstToken _); simpl; by apply String.eqb_eq in Ep.
    + by destruct (String.eqb (Str.toLowerCase w) "returns").
Qed.

Lemma toLowerChar_idem a : Str.toLowerChar (Str.toLowerChar a) = Str.toLowerChar a.
Proof. destruct a as [[] [] [] [] [] [] [] []]; reflexivity. Qed.

Lemma toLowerCase_idem s : Str.toLowerCase (Str.toLowerCase s) = Str.toLowerCase s.
Proof.
  induction s as [|a s IH]; simpl; [done|].
  by rewrite toLowerChar_idem, IH.
Qed.

(** Every tag [tagsOfLines] yields got its name from [parseTag]. *)
Lemma tagsOfLines_names (P : string → Prop) lines : ∀ cur,
  (∀ w line, P (tagName (parseTag w line))) →
  (∀ t, cur = Some t → P (tagName t)) →
  Forall (fun t => P (tagName t)) (tagsOfLines cur lines).
Proof.
  induction lines as [|l lines IH]; intros cur Hp Hcur; simpl.
  - destruct cur as [t|]; simpl; [|constructor].
    constructor; [by apply Hcur|constructor].
  - destruct (tagMatch l) as [w|].
    + apply Forall_app. split.
      * destruct cur as [t|]; simpl; [|constructor].
        constructor; [by apply Hcur|constructor].
      * apply IH; [done|]. intros t [= <-]. apply Hp.
    + apply IH; [done|]. intros t Ht.
      destruct cur as [t0|]; simpl in Ht; [|done].
      injection Ht as <-. simpl. by apply Hcur.
Qed.

End ParseTags.

(** X3.  The tags of a parsed comment are those of [tagsOfLines] on its
    normalized lines: one tag per line that starts a tag, in the order of
    the lines, each with the name, parameter name and text taken from its
    line, and its text extended by a line feed and the line for every
    following line up to the next tag line. *)
Theorem parseComment_tags (text : string) :
  tagsOf (parseComment text None) = tagsOfLines None (bodyLines text).
Proof.
  unfold parseComment, parseLines. rewrite fold_parseLine.
  fold (bodyLines text).
  by rewrite (parseSteps_tagsOfLines _ _ [] None).
Qed.

(** X4.  Parsing into a comment that already has tags appends: the tags it
    had come first, unchanged, followed by exactly the tags the same text
    yields when parsed into a new comment. *)
Theorem parseComment_appends_tags (text : string) (c : Comment) :
  tagsOf (parseComment text (Some c))
  = tagsOf c ++ tagsOf (parseComment text None).
Proof.
  unfold parseComment, parseLines. rewrite !fold_parseLine.
  apply parseSteps_prefix; simpl.
  - by rewrite app_nil_r.
  - done.
Qed.

(** X5.  No tag that [parseComment] creates is named [return]: the name is
    the lower-cased word after the [@], with [return] turned into
    [returns]. *)
Theorem parseComment_tag_names_normalized (text : string) :
  Forall (fun t => tagName t ≠ "return"
                   ∧ Str.toLowerCase (tagName t) = tagName t)
         (tagsOf (parseComment text None)).
Proof.
  unfold parseComment, parseLines. rewrite fold_parseLine.
  rewrite (parseSteps_tagsOfLines _ _ [] None) by done. simpl.
  apply (tagsOfLines_names
           (fun n => n ≠ "return" ∧ Str.toLowerCase n = n)); [|done].
  intros w line. rewrite parseTag_name.
  destruct (String.eqb (Str.toLowerCase w) "return") eqn:E.
  - split; [discriminate|reflexivity].
  - apply String.eqb_neq in E. split; [done|apply toLowerCase_idem].
Qed.

(** ** parseComment: description *)

Section ParseDescription.

(** While a tag is open no line changes the description, and a tag stays
    open once one is. *)
Lemma parseStep_open_tag st line :
  is_Some (currentTag st) →
  is_Some (currentTag (parseStep st line))
  ∧ description (parseStep st line) = description st.
Proof.
  intros [i Hi]. unfold parseStep, description.
  destruct (tagMatch line) as [w|]; [by eauto|].
  rewrite Hi. simpl. eauto.
Qed.

Lemma parseSteps_open_tag lines : ∀ st,
  is_Some (currentTag st) →
  description (fold_left parseStep lines st) = description st.
Proof.
  induction lines as [|l lines IH]; intros st Hst; simpl; [done|].
  destruct (parseStep_open_tag st l Hst) as [H1 H2].
  by rewrite IH.
Qed.

(** No line changes the [returns] field. *)
Lemma parseStep_returns st line :
  returns (ps_comment (parseStep st line)) = returns (ps_comment st).
Proof.
  unfold parseStep. destruct (tagMatch line) as [w|]; [done|].
  destruct (currentTag st) as [i|]; [done|].
  repeat match goal with |- context [if ?b then _ else _] =>
           destruct b end; done.
Qed.

Lemma parseLines_returns lines : ∀ st,
  returns (ps_comment (fold_left parseLine lines st))
  = returns (ps_comment st).
Proof.
  induction lines as [|l lines IH]; intros st; simpl; [done|].
  rewrite IH. apply parseStep_returns.
Qed.

End ParseDescription.

(** X6.  Once a line has started a tag, the description is closed: the short
    and the long text of the result are those reached before that line,
    whatever follows (later lines go to tags).  The [returns] field is never
    written by [parseComment]. *)
Theorem parseComment_description_closed_by_tag
    (text : string) (comment : option Comment) (pre post : list string)
    (line : string) :
  commentLines text = pre ++ line :: post →
  is_Some (tagMatch (normalizeLine line)) →
  shortText (parseComment text comment)
  = shortText (ps_comment (parseLines pre comment))
  ∧ c_text (parseComment text comment)
    = c_text (ps_comment (parseLines pre comment))
  ∧ returns (parseComment text comment)
    = returns (default (new_Comment "") comment).
Proof.
  intros Hlines [w Hw].
  assert (Hd : description (parseLines (commentLines text) comment)
               = description (parseLines pre comment)).
  { unfold parseLines. rewrite Hlines, fold_left_app. simpl.
    rewrite fold_parseLine, parseSteps_open_tag.
    - unfold parseLine, parseStep, description. by rewrite Hw.
    - unfold parseLine, parseStep. rewrite Hw. by eexists. }
  unfold description in Hd. injection Hd as H1 H2.
  unfold parseComment. split; [done|]. split; [done|].
  unfold parseLines. by rewrite parseLines_returns.
Qed.

Lemma parseComment_description_closed_by_tag_witness :
  shortText (parseComment exampleComment None)
  = shortText (ps_comment (parseLines [" A. "] None))
  ∧ c_text (parseComment exampleComment None)
    = c_text (ps_comment (parseLines [" A. "] None))
  ∧ returns (parseComment exampleComment None)
    = returns (default (new_Comment "") None).
Proof.
  apply (parseComment_description_closed_by_tag exampleComment None
           [" A. "] [" * @returns done"; " "] " * @param x the value").
  - reflexivity.
  - vm_compute. by eexists.
Defined.

(** ** The table of module comments *)

Section ModuleTable.

Implicit Types (comments : gmap Z IModuleComment) (r : Reflection).

Lemma recordAll_snoc comments found c r :
  recordAll comments (found ++ [(c, r)])
  = storeModuleComment (recordAll comments found) c r.
Proof. unfold recordAll. by rewrite fold_left_app. Qed.

(** What a table that started empty holds for a module. *)
Lemma recordAll_entry found : ∀ (i : Z) info,
  recordAll ∅ found !! i = Some info →
  reflection info = i
  ∧ isPreferred info = hasPreferredMarker (fullText info)
  ∧ ∃ r, (fullText info, r) ∈ found ∧ id r = i.
Proof.
  induction found as [|[c r] found IH] using rev_ind; intros i info Hi.
  - unfold recordAll in Hi. simpl fold_left in Hi.
    by rewrite lookup_empty in Hi.
  - rewrite recordAll_snoc in Hi.
    assert (Hold : ∀ old, recordAll ∅ found !! i = Some old →
              reflection old = i
              ∧ isPreferred old = hasPreferredMarker (fullText old)
              ∧ ∃ r0, (fullText old, r0) ∈ found ++ [(c, r)] ∧ id r0 = i).
    { intros old Ho. destruct (IH _ _ Ho) as (H1 & H2 & r0 & H3 & H4).
      repeat split; try done. exists r0. split; [|done].
      apply elem_of_app. by left. }
    assert (Hnew : (c, r) ∈ found ++ [(c, r)]).
    { apply elem_of_app. right. by left. }
    destruct (decide (i = id r)) as [->|Hne].
    + unfold storeModuleComment in Hi.
      destruct (recordAll ∅ found !! id r) as [old|] eqn:E.
      * destruct (Hold old eq_refl) as (H1 & H2 & H3).
        destruct (_ && _).
        -- rewrite E in Hi. injection Hi as <-. done.
        -- rewrite lookup_insert_eq in Hi. injection Hi as <-. simpl.
           repeat split; try done. by exists r.
      * rewrite lookup_insert_eq in Hi. injection Hi as <-. simpl.
        repeat split; try done. by exists r.
    + rewrite storeModuleComment_other in Hi by done. by apply Hold.
Qed.

(** A module that has a candidate keeps having one. *)
Lemma storeModuleComment_is_Some comments c r (i : Z) :
  is_Some (comments !! i) ∨ i = id r →
  is_Some (storeModuleComment comments c r !! i).
Proof.
  intros H. destruct (decide (i = id r)) as [->|Hne].
  - unfold storeModuleComment.
    destruct (comments !! id r) as [old|] eqn:E.
    + destruct (_ && _); [by rewrite E|by rewrite lookup_insert_eq].
    + by rewrite lookup_insert_eq.
  - rewrite storeModuleComment_other by done. by destruct H.
Qed.

Lemma recordAll_is_Some found : ∀ comments (i : Z),
  is_Some (comments !! i) ∨ (∃ c r, (c, r) ∈ found ∧ id r = i) →
  is_Some (recordAll comments found !! i).
Proof.
  induction found as [|[c r] found IH]; intros comments i H; simpl.
  - destruct H as [H|(c & r & Hin & _)]; [done|].
    by apply elem_of_nil in Hin.
  - apply IH. destruct H as [H|(c0 & r0 & Hin & Hid)].
    + left. apply storeModuleComment_is_Some. by left.
    + apply elem_of_cons in Hin as [[= -> ->]|Hin].
      * left. apply storeModuleComment_is_Some. by right.
      * right. eauto.
Qed.

(** A stored candidate survives every comment that is not preferred and,
    unless the stored one is preferred, strictly shorter. *)
Lemma recordAll_kept found : ∀ comments (i : Z) info,
  comments !! i = Some info →
  Forall (fun cr : string * Reflection =>
            id cr.2 = i →
            hasPreferredMarker cr.1 = false
            ∧ (isPreferred info = true
               ∨ String.length cr.1 < String.length (fullText info)))
         found →
  recordAll comments found !! i = Some info.
Proof.
  induction found as [|[c r] found IH]; intros comments i info Hi Hall;
    simpl; [done|].
  apply Forall_cons in Hall as [Hcr Hall]. simpl in Hcr.
  apply IH; [|done].
  destruct (decide (i = id r)) as [->|Hne].
  - destruct Hcr as [Hc Hor]; [done|].
    by rewrite (storeModuleComment_keeps comments c r info).
  - by rewrite storeModuleComment_other.
Qed.

(** [onBeginResolve] on a table whose entries target their own key. *)
Lemma onBeginResolve_lookup comments (project : gmap Z Reflection) :
  (∀ (k : Z) info, comments !! k = Some info → reflection info = k) →
  ∀ i : Z,
    onBeginResolve comments project !! i
    = match comments !! i with
      | Some info =>
          (fun r => set_comment r (Some (moduleComment info))) <$> project !! i
      | None => project !! i
      end.
Proof.
  unfold onBeginResolve.
  apply (map_fold_weak_ind
    (fun (res : gmap Z Reflection) (m : gmap Z IModuleComment) =>
       (∀ (k : Z) info, m !! k = Some info → reflection info = k) →
       ∀ i : Z,
         res !! i
         = match m !! i with
           | Some info =>
               (fun r => set_comment r (Some (moduleComment info)))
                 <$> project !! i
           | None => project !! i
           end)).
  - intros _ i. by rewrite lookup_empty.
  - intros k x m res Hk IH Hinv i.
    assert (Hx : reflection x = k) by (apply Hinv; by rewrite lookup_insert_eq).
    assert (Hm : ∀ (k' : Z) info, m !! k' = Some info → reflection info = k').
    { intros k' info Hk'. apply Hinv. rewrite lookup_insert_ne; [done|].
      intros ->. by rewrite Hk in Hk'. }
    rewrite Hx. destruct (decide (i = k)) as [->|Hne].
    + rewrite lookup_alter_eq, lookup_insert_eq, (IH Hm k), Hk. done.
    + rewrite lookup_alter_ne, lookup_insert_ne by done. by apply IH.
Qed.

End ModuleTable.

(** X7.  After any sequence of recorded comments since [onBegin], the table
    has a candidate for a module exactly when some comment was recorded for
    it; the candidate's text is one of those comments, its preference flag is
    the one that text carries, and it targets the module it is filed
    under. *)
Theorem recordAll_holds_recorded_comments
    (found : list (string * Reflection)) (i : Z) :
  (is_Some (recordAll onBegin found !! i)
   ↔ ∃ c r, (c, r) ∈ found ∧ id r = i)
  ∧ ∀ info, recordAll onBegin found !! i = Some info →
      reflection info = i
      ∧ isPreferred info = hasPreferredMarker (fullText info)
      ∧ ∃ r, (fullText info, r) ∈ found ∧ id r = i.
Proof.
  split; [split|].
  - intros [info Hi]. destruct (recordAll_entry found i info Hi)
      as (_ & _ & r & Hin & Hid). eauto.
  - intros H. apply recordAll_is_Some. by right.
  - apply recordAll_entry.
Qed.

(** X8.  Among the comments recorded for a module, the last preferred one is
    the stored candidate, whatever was stored before and however long the
    comments recorded after it are. *)
Theorem last_preferred_comment_wins
    (comments : gmap Z IModuleComment)
    (before after : list (string * Reflection)) (c : string)
    (r : Reflection) :
  hasPreferredMarker c = true →
  Forall (fun cr : string * Reflection =>
            id cr.2 = id r → hasPreferredMarker cr.1 = false) after →
  ∃ info,
    recordAll comments (before ++ (c, r) :: after) !! id r = Some info
    ∧ fullText info = c ∧ isPreferred info = true.
Proof.
  intros Hc Hafter. unfold recordAll. rewrite fold_left_app. simpl.
  fold (recordAll comments before).
  destruct (storeModuleComment_preferred (recordAll comments before) c r Hc)
    as (info & Hi & Ht & Hp).
  exists info. split; [|done].
  apply recordAll_kept; [done|].
  eapply Forall_impl; [exact Hafter|].
  intros [c' r'] H Hid. split; [by apply H|by left].
Qed.

Lemma last_preferred_comment_wins_witness :
  ∃ info,
    recordAll onBegin
      ([("/** short */", moduleA)]
       ++ ("/** @preferred */", moduleA)
          :: [("/** a much longer block */", moduleA)]) !! id moduleA
    = Some info
    ∧ fullText info = "/** @preferred */" ∧ isPreferred info = true.
Proof.
  apply (last_preferred_comment_wins onBegin [("/** short */", moduleA)]
           [("/** a much longer block */", moduleA)]
           "/** @preferred */" moduleA).
  - reflexivity.
  - repeat constructor.
Defined.

(** X9.  When no comment recorded for a module since [onBegin] is preferred,
    the stored candidate is the last of the longest: a comment at least as
    long as every one before it and strictly longer than every one after it
    is the one retained. *)
Theorem last_longest_comment_wins
    (before after : list (string * Reflection)) (c : string)
    (r : Reflection) :
  hasPreferredMarker c = false →
  Forall (fun cr : string * Reflection =>
            id cr.2 = id r →
            hasPreferredMarker cr.1 = false
            ∧ String.length cr.1 ≤ String.length c) before →
  Forall (fun cr : string * Reflection =>
            id cr.2 = id r →
            hasPreferredMarker cr.1 = false
            ∧ String.length cr.1 < String.length c) after →
  recordAll onBegin (before ++ (c, r) :: after) !! id r
  = Some (mkModuleComment (id r) c false).
Proof.
  intros Hc Hbefore Hafter. unfold recordAll. rewrite fold_left_app. simpl.
  fold (recordAll onBegin before).
  apply recordAll_kept.
  - unfold storeModuleComment. rewrite Hc.
    destruct (recordAll onBegin before !! id r) as [old|] eqn:E.
    + destruct (recordAll_entry before _ _ E) as (Hr & Hp & r0 & Hin & Hid).
      rewrite Forall_forall in Hbefore.
      destruct (Hbefore _ Hin Hid) as [Hnp Hle]. simpl in Hnp, Hle.
      rewrite Hp, Hnp. simpl.
      apply Nat.ltb_ge in Hle. rewrite Hle. simpl.
      by rewrite lookup_insert_eq, Hr.
    + by rewrite lookup_insert_eq.
  - eapply Forall_impl; [exact Hafter|].
    intros [c' r'] H Hid. destruct (H Hid) as [H1 H2].
    split; [done|]. by right.
Qed.

Lemma last_longest_comment_wins_witness :
  recordAll onBegin
    ([("/** one */", moduleA)]
     ++ ("/** two */", moduleA) :: [("/** 3 */", moduleA)]) !! id moduleA
  = Some (mkModuleComment (id moduleA) "/** two */" false).
Proof.
  apply (last_longest_comment_wins [("/** one */", moduleA)]
           [("/** 3 */", moduleA)] "/** two */" moduleA).
  - reflexivity.
  - repeat constructor; simpl; lia.
  - repeat constructor; simpl; lia.
Defined.

(** X10.  [onBeginResolve], run on the table built since [onBegin], gives
    every reflection of the project that has a stored candidate the comment
    parsed from the candidate's text, replacing the comment it had, and
    leaves every other reflection untouched; the comment it assigns has no
    tag named [preferred]. *)
Theorem onBeginResolve_assigns_module_comments
    (found : list (string * Reflection)) (project : gmap Z Reflection)
    (i : Z) :
  onBeginResolve (recordAll onBegin found) project !! i
  = match recordAll onBegin found !! i with
    | Some info =>
        (fun r =>
           set_comment r
             (Some (removeTags (parseComment (fullText info) None)
                               "preferred"))) <$> project !! i
    | None => project !! i
    end
  ∧ ∀ info, hasTag (removeTags (parseComment (fullText info) None)
                               "preferred") "preferred" = false.
Proof.
  split.
  - apply onBeginResolve_lookup. intros k info Hk.
    by destruct (recordAll_entry found k info Hk).
  - intros info. apply hasTag_removeTags.
Qed.

(** ** onDeclaration and onFunctionImplementation *)

Section Declaration.

Lemma parseComment_tags_prefix text c :
  tagsOf (parseComment text (Some c))
  = tagsOf c ++ tagsOf (parseComment text None).
Proof.
  unfold parseComment, parseLines. rewrite !fold_parseLine.
  apply parseSteps_prefix; simpl; [by rewrite app_nil_r|done].
Qed.

Lemma tagsOf_applyAccessModifiers r c :
  tagsOf (applyAccessModifiers r c).2
  = List.filter (fun t => negb (isAccessTag t)) (tagsOf c).
Proof.
  unfold tagsOf. rewrite tags_applyAccessModifiers. by destruct (tags c).
Qed.

Lemma kindOf_function_not_module r :
  kindOf r FunctionOrMethod = true → kindOf r [KModule] = false.
Proof. unfold kindOf. by destruct (kind r). Qed.

End Declaration.


(** X12.  For a reflection that is not a module and already has a comment,
    [onDeclaration] with a non-empty raw comment merges: the comment's tags
    afterwards are its earlier tags followed by the tags of the raw comment,
    without any tag named [private], [protected] or [public]. *)
Theorem onDeclaration_merges_tags
    (comments : gmap Z IModuleComment) (raw : string) (r : Reflection)
    (c : Comment) :
  raw ≠ "" →
  kindOf r [KModule] = false →
  comment r = Some c →
  ∃ c',
    comment (onDeclaration comments (Some raw) r).2 = Some c'
    ∧ tagsOf c'
      = List.filter (fun t => negb (isAccessTag t))
          (tagsOf c ++ tagsOf (parseComment raw None)).
Proof.
  intros Hraw Hk Hc. destruct raw as [|a raw]; [done|].
  unfold onDeclaration. rewrite Hk, Hc.
  pose proof (tagsOf_applyAccessModifiers r
                (parseComment (String a raw) (Some c))) as Ht.
  rewrite parseComment_tags_prefix in Ht.
  destruct (applyAccessModifiers r (parseComment (String a raw) (Some c)))
    as [r' c'].
  exists c'. simpl in Ht. by destruct (kindOf r FunctionOrMethod).
Qed.

Lemma onDeclaration_merges_tags_witness :
  ∃ c',
    comment (onDeclaration onBegin (Some privateComment)
               (set_comment methodM
                  (Some (mkComment "Old." "" None
                           (Some [mkTag "see" "" "other"]))))).2 = Some c'
    ∧ tagsOf c'
      = List.filter (fun t => negb (isAccessTag t))
          (tagsOf (mkComment "Old." "" None (Some [mkTag "see" "" "other"]))
           ++ tagsOf (parseComment privateComment None)).
Proof.
  apply (onDeclaration_merges_tags onBegin privateComment
           (set_comment methodM
              (Some (mkComment "Old." "" None
                       (Some [mkTag "see" "" "other"]))))
           (mkComment "Old." "" None (Some [mkTag "see" "" "other"])));
    [discriminate | reflexivity | reflexivity].
Defined.

(** X13.  [onFunctionImplementation] with a non-empty raw comment parses it
    into the comment of the reflection (a new one if it had none): the
    earlier tags are kept, followed by all tags of the raw comment.  Unlike
    [onDeclaration] it applies no access modifier: the flags are unchanged
    and [private], [protected] and [public] tags stay in the comment. *)
Theorem onFunctionImplementation_merges_and_keeps_flags
    (raw : string) (r : Reflection) :
  raw ≠ "" →
  sameButComment r (onFunctionImplementation (Some raw) r)
  ∧ ∃ c',
      comment (onFunctionImplementation (Some raw) r) = Some c'
      ∧ tagsOf c'
        = tagsOf (default (new_Comment "") (comment r))
          ++ tagsOf (parseComment raw None).
Proof.
  intros Hraw. destruct raw as [|a raw]; [done|].
  unfold onFunctionImplementation. simpl. split; [by repeat split|].
  eexists. split; [reflexivity|].
  destruct (comment r) as [c|]; simpl.
  - apply parseComment_tags_prefix.
  - done.
Qed.

Lemma onFunctionImplementation_merges_and_keeps_flags_witness :
  sameButComment methodM (onFunctionImplementation (Some privateComment) methodM)
  ∧ ∃ c',
      comment (onFunctionImplementation (Some privateComment) methodM)
      = Some c'
      ∧ tagsOf c'
        = tagsOf (default (new_Comment "") (comment methodM))
          ++ tagsOf (parseComment privateComment None).
Proof.
  apply (onFunctionImplementation_merges_and_keeps_flags privateComment methodM).
  discriminate.
Defined.

(** ** onResolve *)

Section ResolveMore.

Lemma onResolve_unfold d :
  signatures d ≠ [] →
  onResolve d
  = mkDeclaration
      (set_comment (d_base d)
         (removeTags_opt (moveReturns (comment (d_base d))) "param"))
      (map (resolveSignature (moveReturns (comment (d_base d))))
           (signatures d)).
Proof. unfold onResolve. by destruct (signatures d). Qed.

Lemma hasTag_param_removed c : hasTag (removeTags c "param") "param" = false.
Proof. apply hasTag_removeTags. Qed.

Lemma cleanComment_moved x c :
  tags x = List.filter (otherName "returns") <$> tags c →
  cleanComment (Some (removeTags x "param")) = true.
Proof.
  intros Hx. simpl. by rewrite (hasTag_moved x c), hasTag_param_removed.
Qed.

Lemma cleanComment_resolved oc :
  cleanComment (removeTags_opt (moveReturns oc) "param") = true.
Proof.
  destruct oc as [c|]; [|done]. rewrite moveReturns_spec. simpl removeTags_opt.
  by apply (cleanComment_moved _ c).
Qed.

Lemma cleanComment_child dc sc :
  cleanComment (removeTags_opt (inheritComment dc (moveReturns sc)) "param")
  = true.
Proof.
  destruct sc as [c|].
  - rewrite moveReturns_spec. destruct dc as [d|]; simpl removeTags_opt.
    + by apply (cleanComment_moved _ c).
    + by apply (cleanComment_moved _ c).
  - destruct dc as [d|]; [|done]. simpl removeTags_opt.
    by apply (cleanComment_moved _ (new_Comment "")).
Qed.

Lemma resolveParameter_same dc cc p :
  sameButComment p (resolveParameter dc cc p).
Proof.
  unfold resolveParameter.
  repeat match goal with |- context [match ?x with _ => _ end] =>
           destruct x end; by repeat split.
Qed.

Lemma sameButComment_refl r : sameButComment r r.
Proof. by repeat split. Qed.

Lemma resolveSignature_same dc s : sameSignature s (resolveSignature dc s).
Proof.
  unfold resolveSignature, sameSignature. simpl. split; [by repeat split|].
  destruct (parameters s) as [ps|]; simpl; constructor.
  induction ps as [|p ps IH]; simpl; constructor; [|done].
  apply resolveParameter_same.
Qed.

Lemma sameSignature_refl s : sameSignature s s.
Proof.
  split; [apply sameButComment_refl|].
  destruct (parameters s) as [ps|]; constructor.
  induction ps; constructor; [apply sameButComment_refl|done].
Qed.

(** A comment without [param] tags answers no [param] lookup. *)
Lemma getTag_param_none c n :
  hasTag c "param" = false → getTag c "param" (Some n) = None.
Proof.
  rewrite getTag_find. unfold hasTag.
  induction (tagsOf c) as [|t ts IH]; simpl; [done|].
  intros H. apply orb_false_iff in H as [H1 H2].
  unfold tagMatches at 1. rewrite H1. simpl. by apply IH.
Qed.

Lemma moveReturns_clean c :
  hasTag c "returns" = false → moveReturns (Some c) = Some c.
Proof. intros H. unfold moveReturns. by rewrite H. Qed.

Lemma removeTags_absent c name :
  hasTag c name = false → removeTags c name = c.
Proof.
  intros H. rewrite removeTags_as_filter. unfold hasTag, tagsOf in H.
  destruct c as [s t r [ts|]]; simpl in *; [|done].
  by rewrite filter_otherName_id.
Qed.

Lemma or_string_idem a b : or_string (or_string a b) b = or_string a b.
Proof. by destruct a, b. Qed.

Lemma js_or_idem a b : js_or (js_or a b) b = js_or a b.
Proof.
  unfold js_or. destruct (truthy a) eqn:Ea; [by rewrite Ea|].
  by destruct (truthy b).
Qed.

End ResolveMore.

(** X14.  After [onResolve] on a declaration that has signatures, neither
    the declaration's comment nor the comment of any of its signatures has a
    [returns] or a [param] tag left, matched or not. *)
Theorem onResolve_leaves_no_returns_or_param_tags (d : DeclarationReflection) :
  signatures d ≠ [] →
  cleanComment (comment (d_base (onResolve d))) = true
  ∧ Forall (fun s => cleanComment (comment (s_base s)) = true)
           (signatures (onResolve d)).
Proof.
  intros Hs. rewrite onResolve_unfold by done. simpl. split.
  - apply cleanComment_resolved.
  - apply Forall_forall. intros s' Hin.
    apply list_elem_of_fmap in Hin as (s & -> & _).
    unfold resolveSignature. simpl. apply cleanComment_child.
Qed.

Lemma onResolve_leaves_no_returns_or_param_tags_witness :
  cleanComment (comment (d_base (onResolve declLevel))) = true
  ∧ Forall (fun s => cleanComment (comment (s_base s)) = true)
           (signatures (onResolve declLevel)).
Proof.
  apply (onResolve_leaves_no_returns_or_param_tags declLevel). discriminate.
Defined.

(** X15.  [onResolve] only writes comments: the declaration keeps its id,
    name, kind and flags, it has the same signatures in the same order, and
    every signature the same parameters in the same order, each with its id,
    name, kind and flags. *)
Theorem onResolve_changes_comments_only (d : DeclarationReflection) :
  sameButComment (d_base d) (d_base (onResolve d))
  ∧ Forall2 sameSignature (signatures d) (signatures (onResolve d)).
Proof.
  unfold onResolve. destruct (signatures d) as [|s sigs] eqn:E.
  - rewrite E. split; [apply sameButComment_refl|constructor].
  - simpl. split; [by repeat split|].
    constructor; [apply resolveSignature_same|].
    clear E. induction sigs as [|s' sigs IH]; simpl; constructor; [|done].
    apply resolveSignature_same.
Qed.

Section ResolveSignatures.

Lemma comment_eta (x : Comment) :
  mkComment (shortText x) (c_text x) (returns x) (tags x) = x.
Proof. by destruct x. Qed.

Lemma cleanComment_split c :
  cleanComment (Some c) = true →
  hasTag c "returns" = false ∧ hasTag c "param" = false.
Proof.
  simpl. intros H. apply andb_true_iff in H as [H1 H2].
  by apply negb_true_iff in H1, H2.
Qed.

(** The [param] tag a parameter finds in the comment of its signature, as
    that comment stood before [onResolve]. *)
Lemma child_getTag dc sc n :
  (c ← inheritComment dc (moveReturns sc); getTag c "param" (Some n))
  = (c ← sc; getTag c "param" (Some n)).
Proof.
  destruct sc as [cc|].
  - destruct (moveReturns (Some cc)) as [c1|] eqn:E.
    + rewrite getTag_param_inherit. simpl.
      by apply getTag_param_moveReturns.
    + by rewrite moveReturns_spec in E.
  - simpl. by destruct dc.
Qed.

Lemma decl_getTag dc n :
  (c ← moveReturns dc; getTag c "param" (Some n))
  = (c ← dc; getTag c "param" (Some n)).
Proof.
  destruct dc as [c|]; [|done].
  destruct (moveReturns (Some c)) as [c1|] eqn:E.
  - simpl. by apply getTag_param_moveReturns.
  - by rewrite moveReturns_spec in E.
Qed.

(** [resolveParameter] in terms of two lookups. *)
Lemma resolveParameter_lookups dc cc p :
  resolveParameter dc cc p
  = match c ← cc; getTag c "param" (Some (name p)) with
    | Some t => set_comment p (Some (new_Comment (text t)))
    | None =>
        match c ← dc; getTag c "param" (Some (name p)) with
        | Some t => set_comment p (Some (new_Comment (text t)))
        | None => p
        end
    end.
Proof.
  unfold resolveParameter.
  destruct (cc ≫= _) as [t|]; [by destruct dc|].
  by destruct dc.
Qed.

Lemma resolveParameter_clean dc cc p :
  cleanComment dc = true → cleanComment cc = true →
  resolveParameter dc cc p = p.
Proof.
  intros Hd Hc. rewrite resolveParameter_lookups.
  assert (H : ∀ oc, cleanComment oc = true →
                    (c ← oc; getTag c "param" (Some (name p))) = None).
  { intros [c|] Hoc; [|done]. simpl.
    apply getTag_param_none. by apply cleanComment_split. }
  by rewrite (H cc Hc), (H dc Hd).
Qed.

Lemma moveReturns_cleaned oc :
  cleanComment oc = true → moveReturns oc = oc.
Proof.
  destruct oc as [c|]; [|done]. intros H.
  apply moveReturns_clean. by apply cleanComment_split.
Qed.

Lemma removeTags_opt_cleaned oc :
  cleanComment oc = true → removeTags_opt oc "param" = oc.
Proof.
  destruct oc as [c|]; [|done]. intros H. simpl. f_equal.
  apply removeTags_absent. by apply cleanComment_split.
Qed.

(** Inheriting once more from the declaration changes nothing. *)
Lemma inheritComment_again mdc sc :
  inheritComment (removeTags_opt mdc "param")
    (removeTags_opt (inheritComment mdc sc) "param")
  = removeTags_opt (inheritComment mdc sc) "param".
Proof.
  destruct mdc as [m|]; [|done]. simpl. f_equal.
  rewrite !removeTags_as_filter. simpl.
  by rewrite !or_string_idem, js_or_idem.
Qed.

Lemma resolveSignature_again dc s :
  resolveSignature (removeTags_opt (moveReturns dc) "param")
    (resolveSignature (moveReturns dc) s)
  = resolveSignature (moveReturns dc) s.
Proof.
  unfold resolveSignature at 1. unfold resolveSignature at 1 2. simpl.
  set (child := inheritComment (moveReturns dc)
                  (moveReturns (comment (s_base s)))).
  pose proof (cleanComment_child (moveReturns dc) (comment (s_base s)))
    as Hclean. fold child in Hclean.
  pose proof (cleanComment_resolved dc) as Hd.
  rewrite (moveReturns_cleaned _ Hclean).
  unfold child at 1 2. rewrite inheritComment_again. fold child.
  rewrite (removeTags_opt_cleaned _ Hclean).
  unfold resolveSignature. fold child. f_equal.
  destruct (parameters s) as [ps|]; simpl; [|done]. f_equal.
  rewrite map_map. apply map_ext. intros p.
  unfold child at 1. rewrite inheritComment_again. fold child.
  by apply resolveParameter_clean.
Qed.

End ResolveSignatures.

(** X16.  When the declaration has a comment, every signature has one after
    [onResolve], and its short and long text are the signature's own where
    these are not empty and the declaration's otherwise; the declaration's
    own short and long text are unchanged. *)
Theorem onResolve_inherits_description
    (d : DeclarationReflection) (k : nat) (s : SignatureReflection)
    (dc : Comment) :
  signatures d !! k = Some s →
  comment (d_base d) = Some dc →
  ∃ dc' s' cc',
    comment (d_base (onResolve d)) = Some dc'
    ∧ shortText dc' = shortText dc ∧ c_text dc' = c_text dc
    ∧ signatures (onResolve d) !! k = Some s'
    ∧ comment (s_base s') = Some cc'
    ∧ shortText cc'
      = or_string (shortText (default (new_Comment "") (comment (s_base s))))
                  (shortText dc)
    ∧ c_text cc'
      = or_string (c_text (default (new_Comment "") (comment (s_base s))))
                  (c_text dc).
Proof.
  intros Hk Hdc.
  assert (Hs : signatures d ≠ []) by (intros E; by rewrite E in Hk).
  rewrite onResolve_unfold by done. simpl.
  rewrite list_lookup_fmap, Hk, Hdc, moveReturns_spec. simpl.
  unfold resolveSignature. cbn [s_base comment set_comment].
  destruct (comment (s_base s)) as [cc|].
  - rewrite moveReturns_spec. simpl.
    eexists _, _, _. split; [reflexivity|].
    rewrite !removeTags_as_filter. simpl. by repeat split.
  - simpl. eexists _, _, _. split; [reflexivity|].
    rewrite !removeTags_as_filter. simpl. by repeat split.
Qed.

Lemma onResolve_inherits_description_witness :
  ∃ dc' s' cc',
    comment (d_base (onResolve (mkDeclaration declR [sigS; sigPlain])))
    = Some dc'
    ∧ shortText dc' = "Does it." ∧ c_text dc' = ""
    ∧ signatures (onResolve (mkDeclaration declR [sigS; sigPlain])) !! 1
      = Some s'
    ∧ comment (s_base s') = Some cc'
    ∧ shortText cc'
      = or_string (shortText (default (new_Comment "")
                                (comment (s_base sigPlain))))
                  "Does it."
    ∧ c_text cc'
      = or_string (c_text (default (new_Comment "")
                             (comment (s_base sigPlain))))
                  "".
Proof.
  apply (onResolve_inherits_description (mkDeclaration declR [sigS; sigPlain])
           1 sigPlain
           (mkComment "Does it." "" None (Some [mkTag "returns" "" "R"])));
    reflexivity.
Defined.

(** X17.  The comment of a parameter after [onResolve] is decided by two
    lookups in the comments as they stood before: the first [param] tag with
    the parameter's name in the signature's own comment; failing that, the
    first one in the declaration's comment; failing both, the parameter is
    left as it was. *)
Theorem onResolve_parameter_lookup_order
    (d : DeclarationReflection) (k j : nat) (s : SignatureReflection)
    (ps : list Reflection) (p : Reflection) :
  signatures d !! k = Some s →
  parameters s = Some ps →
  ps !! j = Some p →
  ∃ s' ps',
    signatures (onResolve d) !! k = Some s'
    ∧ parameters s' = Some ps'
    ∧ ps' !! j
      = Some
          match c ← comment (s_base s); getTag c "param" (Some (name p)) with
          | Some t => set_comment p (Some (new_Comment (text t)))
          | None =>
              match c ← comment (d_base d);
                    getTag c "param" (Some (name p)) with
              | Some t => set_comment p (Some (new_Comment (text t)))
              | None => p
              end
          end.
Proof.
  intros Hk Hps Hj.
  rewrite signatures_onResolve, list_lookup_fmap, Hk. simpl.
  eexists _, _. split; [reflexivity|].
  unfold resolveSignature at 1. simpl. rewrite Hps. simpl.
  split; [reflexivity|].
  rewrite list_lookup_fmap, Hj. simpl. f_equal.
  by rewrite resolveParameter_lookups, child_getTag, decl_getTag.
Qed.

Lemma onResolve_parameter_lookup_order_witness :
  ∃ s' ps',
    signatures (onResolve declLevel) !! 0 = Some s'
    ∧ parameters s' = Some ps'
    ∧ ps' !! 0
      = Some
          match c ← comment (s_base sigLevel);
                getTag c "param" (Some "x") with
          | Some t =>
              set_comment
                (mkReflection 12 "x" KParameter (mkFlags false false false)
                   None)
                (Some (new_Comment (text t)))
          | None =>
              match c ← comment (d_base declLevel);
                    getTag c "param" (Some "x") with
              | Some t =>
                  set_comment
                    (mkReflection 12 "x" KParameter
                       (mkFlags false false false) None)
                    (Some (new_Comment (text t)))
              | None =>
                  mkReflection 12 "x" KParameter (mkFlags false false false)
                    None
              end
          end.
Proof.
  apply (onResolve_parameter_lookup_order declLevel 0 0 sigLevel
           [mkReflection 12 "x" KParameter (mkFlags false false false) None]
           (mkReflection 12 "x" KParameter (mkFlags false false false) None));
    reflexivity.
Defined.

(** X18.  [onResolve] is idempotent: resolving a declaration that was
    already resolved changes nothing. *)
Theorem onResolve_idempotent (d : DeclarationReflection) :
  onResolve (onResolve d) = onResolve d.
Proof.
  destruct (signatures d) as [|s0 sigs] eqn:E.
  - unfold onResolve at 2. rewrite E. unfold onResolve. by rewrite E.
  - assert (Hs : signatures d ≠ []) by (by rewrite E).
    rewrite (onResolve_unfold d Hs).
    rewrite onResolve_unfold; simpl; [|by rewrite E].
    pose proof (cleanComment_resolved (comment (d_base d))) as Hd.
    rewrite (moveReturns_cleaned _ Hd), (removeTags_opt_cleaned _ Hd).
    f_equal. rewrite map_map. apply map_ext. intros s.
    apply resolveSignature_again.
Qed.

(** ** onCreateTypeParameter and getComment *)

(** X19.  When the parent has no comment, or its comment has no [param] tag
    named like the type parameter, [onCreateTypeParameter] changes neither
    the parent nor the type parameter (a comment the type parameter already
    has is kept). *)
Theorem onCreateTypeParameter_without_match (parent r : Reflection) :
  (c ← comment parent; getTag c "param" (Some (name r))) = None →
  onCreateTypeParameter parent r = (parent, r).
Proof.
  unfold onCreateTypeParameter, getTag.
  destruct (comment parent) as [c|]; simpl; [|done].
  destruct (getTagIndex c "param" (Some (name r))) as [i|]; simpl; [|done].
  by intros ->.
Qed.

Lemma onCreateTypeParameter_without_match_witness :
  onCreateTypeParameter genericParent
    (mkReflection 5 "V" KTypeParameter (mkFlags false false false) None)
  = (genericParent,
     mkReflection 5 "V" KTypeParameter (mkFlags false false false) None).
Proof.
  apply (onCreateTypeParameter_without_match genericParent
           (mkReflection 5 "V" KTypeParameter (mkFlags false false false)
              None)).
  reflexivity.
Defined.

(** X20.  [onCreateTypeParameter] only takes tags away from the parent's
    comment: both reflections keep id, name, kind and flags, and the parent
    keeps a comment with the same short text, long text and [returns] field
    whose tags are a subsequence of the tags it had. *)
Theorem onCreateTypeParameter_frame (parent r : Reflection) :
  sameButComment parent (onCreateTypeParameter parent r).1
  ∧ sameButComment r (onCreateTypeParameter parent r).2
  ∧ option_Forall2
      (fun c c' =>
         shortText c' = shortText c ∧ c_text c' = c_text c
         ∧ returns c' = returns c ∧ tagsOf c' `sublist_of` tagsOf c)
      (comment parent) (comment (onCreateTypeParameter parent r).1).
Proof.
  unfold onCreateTypeParameter.
  destruct (comment parent) as [c|] eqn:Ec.
  - destruct (getTagIndex c "param" (Some (name r))) as [i|].
    + destruct (tagsOf c !! i) as [t|]; simpl.
      * repeat split. constructor. repeat split. apply sublist_delete.
      * rewrite Ec. repeat split. by constructor.
    + simpl. rewrite Ec. repeat split. by constructor.
  - simpl. rewrite Ec. repeat split. constructor.
Qed.

Section Cascade.

Lemma pullBack_top top : isTop top = true → pullBack top = top.
Proof.
  destruct top as [k nm nc [b|]]; simpl; [|done].
  unfold isTop. simpl. intros H. apply negb_true_iff in H.
  destruct (Ts.SyntaxKind_eqb (Ts.kind b) Ts.ModuleDeclaration); [|done].
  simpl in H. by rewrite H.
Qed.

Lemma pullBack_cascade top n :
  cascade top n → isTop top = true → pullBack n = top.
Proof.
  intros Hc Htop. induction Hc as [|k nm nc b Hc IH Hk Hpos].
  - by apply pullBack_top.
  - simpl. rewrite Hk, Hpos, Z.eqb_refl. simpl. exact IH.
Qed.

End Cascade.

(** X21.  In a cascaded declaration [module A.B.C] the comment goes to the
    innermost module only.  A module whose next container is a module
    written right after its name gets no comment.  A module that is not in
    a variable statement and is not followed by such a container, and from
    which the adjacent module declarations lead up to [top], gets the last
    doc comment of [top], cut from the source text. *)
Theorem getComment_cascaded_modules
    (sourceText : Ts.Node → string)
    (getJsDocComments : Ts.Node → option (list Ts.TextRange))
    (top n : Ts.Node) :
  cascade top n →
  isTop top = true →
  Ts.kind n = Ts.ModuleDeclaration →
  cascades n = false →
  inVariableStatement n = false →
  getComment sourceText getJsDocComments n
  = match getJsDocComments top with
    | Some (c0 :: cs) =>
        Some (substring (sourceText n) (Ts.pos (List.last cs c0))
                (Ts.end_ (List.last cs c0)))
    | _ => None
    end
  ∧ ∀ outer,
      cascades outer = false
      ∨ getComment sourceText getJsDocComments outer = None.
Proof.
  intros Hc Htop Hk Hnc Hvs. split.
  - unfold getComment. unfold cascades in Hnc. rewrite Hk in Hnc |- *.
    simpl in Hnc. simpl. rewrite Hnc.
    rewrite (pullBack_cascade top n Hc Htop).
    unfold inVariableStatement in Hvs.
    destruct (Ts.parent n) as [p|]; [rewrite Hvs|]; done.
  - intros outer. destruct (cascades outer) eqn:E; [right|by left].
    unfold getComment. unfold cascades in E. by rewrite E.
Qed.

Lemma getComment_cascaded_modules_witness :
  getComment (fun _ => cascadeText) cascadeDocs moduleInner = Some "/**d*/"
  ∧ ∀ outer,
      cascades outer = false
      ∨ getComment (fun _ => cascadeText) cascadeDocs outer = None.
Proof.
  apply (getComment_cascaded_modules (fun _ => cascadeText) cascadeDocs
           moduleOuter moduleInner); try reflexivity.
  apply cascade_step; [apply cascade_top | reflexivity | reflexivity].
Defined.
